(** * Lightsaber AR: gesture-driven sword state machines and 2D collision

    A shallow embedding of [src/utils/geometry.ts] (the geometry kernel) and
    of the game logic of the [LightsaberAR] component (the actor state
    machines [processSoloPlayer] and [processDuelPlayer], [resetGame], the
    blade-clash test and [checkHit]).

    Numbers.  JavaScript numbers are modelled by exact arithmetic: the
    coordinates, distances, progress and velocity are real numbers ([R]),
    the millisecond timestamps of [Date.now()] and the hit points are
    integers ([Z]).  Rounding, infinities and NaN are outside this model;
    every division of the modelled code is by a non-zero constant or is
    guarded by a test of its denominator.  The fist classifier is embedded a
    second time on binary64 numbers (module [Binary64]), where the rounding
    decides how it behaves under scaling and translation.

    Exceptions.  Reading [hand.landmarks[i]] past the end of the array gives
    [undefined], and reading [.x] of it raises a TypeError.  Pure functions
    that read landmarks return an [option] ([None] is the exception);
    functions that mutate state run in the monad [M], which keeps the state
    reached when the exception was raised. *)

From Stdlib Require Import Reals Lra Lia ZArith List Bool String Psatz.
From Stdlib Require PrimFloat.
Import ListNotations.

Open Scope R_scope.

(** ** Comparisons of numbers as booleans *)

Definition Rltb (a b : R) : bool := if Rlt_dec a b then true else false.
Definition Rleb (a b : R) : bool := if Rle_dec a b then true else false.
Definition Reqb (a b : R) : bool := if Req_dec_T a b then true else false.

(** ** Exceptions of pure code *)

Definition Exc (A : Type) : Type := option A.

Definition bindE {A B : Type} (m : Exc A) (k : A -> Exc B) : Exc B :=
  match m with
  | Some a => k a
  | None => None
  end.

Declare Scope exc_scope.
Delimit Scope exc_scope with exc.
Notation "x <- m ;; k" := (bindE m (fun x => k))
  (at level 61, m at next level, right associativity) : exc_scope.

(** [Array.prototype.find] with a predicate that may raise: the elements are
    tried in order, and the search stops at the first one accepted. *)
Fixpoint findE {A : Type} (p : A -> Exc bool) (l : list A) : Exc (option A) :=
  match l with
  | [] => Some None
  | a :: r =>
      match p a with
      | None => None
      | Some true => Some (Some a)
      | Some false => findE p r
      end
  end.

(** ** Types ([types.ts]) *)

Record Vector2 : Type := mkVector2 { vx : R; vy : R }.

(** A landmark of the tracker: [{ x, y, z }]. *)
Record Landmark : Type := mkLandmark { lx : R; ly : R; lz : R }.

(** TypeScript's [Vector2] is a structural interface: every object with
    numeric [x] and [y] is one, a landmark included. *)
Class HasXY (A : Type) : Type := { getX : A -> R; getY : A -> R }.

#[global] Instance Vector2_HasXY : HasXY Vector2 := {| getX := vx; getY := vy |}.
#[global] Instance Landmark_HasXY : HasXY Landmark := {| getX := lx; getY := ly |}.

Inductive Handedness : Type := Left | Right.

Definition Handedness_eqb (a b : Handedness) : bool :=
  match a, b with
  | Left, Left | Right, Right => true
  | _, _ => false
  end.

Record HandData : Type := mkHandData {
  landmarks : list Landmark;
  handedness : Handedness;
  worldLandmarks : option (list Landmark)
}.

Inductive GameMode : Type := SOLO | DUEL.

Inductive GameState : Type :=
  | IDLE | HILT_FORMING | CASTING | ACTIVE | DISSOLVING
  | DUEL_WAITING | DUEL_BOWING | DUEL_FIGHTING | DUEL_ENDED.

Definition GameState_eqb (a b : GameState) : bool :=
  match a, b with
  | IDLE, IDLE | HILT_FORMING, HILT_FORMING | CASTING, CASTING
  | ACTIVE, ACTIVE | DISSOLVING, DISSOLVING | DUEL_WAITING, DUEL_WAITING
  | DUEL_BOWING, DUEL_BOWING | DUEL_FIGHTING, DUEL_FIGHTING
  | DUEL_ENDED, DUEL_ENDED => true
  | _, _ => false
  end.

Inductive PlayerId : Type := P1 | P2.

Record TrailEntry : Type := mkTrailEntry {
  tip : Vector2; base : Vector2; color : string
}.

(** ** The geometry kernel ([src/utils/geometry.ts]) *)

Module Geometry.

Definition getDistance {A B : Type} `{HasXY A} `{HasXY B} (p1 : A) (p2 : B) : R :=
  sqrt ((getX p2 - getX p1) ^ 2 + (getY p2 - getY p1) ^ 2).

Definition normalizeVector (v : Vector2) : Vector2 :=
  let len := sqrt (vx v * vx v + vy v * vy v) in
  if Reqb len 0 then mkVector2 0 0
  else mkVector2 (vx v / len) (vy v / len).

Definition scaleVector (v : Vector2) (s : R) : Vector2 :=
  mkVector2 (vx v * s) (vy v * s).

Definition addVector {A B : Type} `{HasXY A} `{HasXY B} (v1 : A) (v2 : B) : Vector2 :=
  mkVector2 (getX v1 + getX v2) (getY v1 + getY v2).

Definition subVector {A B : Type} `{HasXY A} `{HasXY B} (v1 : A) (v2 : B) : Vector2 :=
  mkVector2 (getX v1 - getX v2) (getY v1 - getY v2).

(** [hand.landmarks[i]], to be read: [None] when the array is too short. *)
Definition landmarkAt (hand : HandData) (i : nat) : Exc Landmark :=
  nth_error (landmarks hand) i.

Record Finger : Type := mkFinger { f_tip : nat; f_pip : nat }.

Definition fingers : list Finger :=
  [ mkFinger 8 6;     (* Index *)
    mkFinger 12 10;   (* Middle *)
    mkFinger 16 14;   (* Ring *)
    mkFinger 20 18 ]. (* Pinky *)

(** The body of the [forEach] of [isFist]: one finger, the counter threaded. *)
Definition curlStep (hand : HandData) (wrist : Landmark)
    (curledCount : nat) (f : Finger) : Exc nat :=
  (tip <- landmarkAt hand (f_tip f) ;;
   pip <- landmarkAt hand (f_pip f) ;;
   mcp <- landmarkAt hand (f_pip f - 1) ;;
   let distTip := getDistance tip wrist in
   let distPip := getDistance pip wrist in
   let distMcp := getDistance mcp wrist in
   if Rltb distTip distPip || Rltb distTip (distMcp * 1.2)
   then Some (S curledCount)
   else Some curledCount)%exc.

Fixpoint forEachE {A S : Type} (body : S -> A -> Exc S) (l : list A) (s : S) : Exc S :=
  match l with
  | [] => Some s
  | a :: r => (s' <- body s a ;; forEachE body r s')%exc
  end.

Definition isFist (hand : HandData) : Exc bool :=
  (wrist <- landmarkAt hand 0 ;;
   curledCount <- forEachE (curlStep hand wrist) fingers 0%nat ;;
   Some (3 <=? curledCount)%nat)%exc.

Definition getHandCenter (hand : HandData) : Exc Vector2 :=
  (wrist <- landmarkAt hand 0 ;;
   indexMCP <- landmarkAt hand 5 ;;
   pinkyMCP <- landmarkAt hand 17 ;;
   Some (mkVector2 ((lx wrist + lx indexMCP + lx pinkyMCP) / 3)
                   ((ly wrist + ly indexMCP + ly pinkyMCP) / 3)))%exc.

Definition getSwordDirection (hand : HandData) : Exc Vector2 :=
  (wrist <- landmarkAt hand 0 ;;
   indexMCP <- landmarkAt hand 5 ;;
   middleMCP <- landmarkAt hand 9 ;;
   let topCenter := mkVector2 ((lx indexMCP + lx middleMCP) / 2)
                              ((ly indexMCP + ly middleMCP) / 2) in
   let v := mkVector2 (vx topCenter - lx wrist) (vy topCenter - ly wrist) in
   Some (normalizeVector v))%exc.

Record GripPoints : Type := mkGripPoints {
  hiltBottom : Vector2; hiltTop : Vector2; direction : Vector2
}.

Definition getGripPoints (hand : HandData) : Exc GripPoints :=
  (wrist <- landmarkAt hand 0 ;;
   indexMCP <- landmarkAt hand 5 ;;
   middleMCP <- landmarkAt hand 9 ;;
   direction <- getSwordDirection hand ;;
   let knuckleCenter := mkVector2 ((lx indexMCP + lx middleMCP) / 2)
                                  ((ly indexMCP + ly middleMCP) / 2) in
   let hiltTop := addVector knuckleCenter (scaleVector direction 0.05) in
   let hiltBottom := subVector wrist (scaleVector direction 0.02) in
   Some (mkGripPoints hiltBottom hiltTop direction))%exc.

End Geometry.

Import Geometry.

(** ** The fist classifier in binary64

    [getDistance] and [isFist] once more, on the numbers that JavaScript
    computes with: IEEE 754 binary64, every operation rounded to the nearest
    double, ties to even ([PrimFloat.float]).  [Math.pow(d, 2)] is the
    rounded square [d * d], which is what [Math.pow] returns whenever the
    square is itself a double, as it is in every hand used below; [1.2] is
    the double nearest to 1.2, as the literal of the source is. *)

Module Binary64.

Import PrimFloat.
Local Open Scope float_scope.

Record Landmark : Type := mkLandmark { lx : float; ly : float; lz : float }.

Record HandData : Type := mkHandData {
  landmarks : list Landmark;
  handedness : Handedness;
  worldLandmarks : option (list Landmark)
}.

Definition getDistance (p1 p2 : Landmark) : float :=
  sqrt ((lx p2 - lx p1) * (lx p2 - lx p1) + (ly p2 - ly p1) * (ly p2 - ly p1)).

Definition landmarkAt (hand : HandData) (i : nat) : Exc Landmark :=
  nth_error (landmarks hand) i.

#[warnings="-inexact-float"]
Definition curlStep (hand : HandData) (wrist : Landmark)
    (curledCount : nat) (f : Finger) : Exc nat :=
  (tip <- landmarkAt hand (f_tip f) ;;
   pip <- landmarkAt hand (f_pip f) ;;
   mcp <- landmarkAt hand (f_pip f - 1) ;;
   let distTip := getDistance tip wrist in
   let distPip := getDistance pip wrist in
   let distMcp := getDistance mcp wrist in
   if (distTip <? distPip) || (distTip <? distMcp * 1.2)
   then Some (S curledCount)
   else Some curledCount)%exc.

Definition isFist (hand : HandData) : Exc bool :=
  (wrist <- landmarkAt hand 0 ;;
   curledCount <- forEachE (curlStep hand wrist) fingers 0%nat ;;
   Some (3 <=? curledCount)%nat)%exc.

End Binary64.

(** ** Geometry helpers of the component *)

Record Segment : Type := mkSegment { p1 : Vector2; p2 : Vector2 }.

(** Distance from point [p] to segment [[v, w]]. *)
Definition distToSegment (p v w : Vector2) : R :=
  let l2 := (vx w - vx v) ^ 2 + (vy w - vy v) ^ 2 in
  if Reqb l2 0 then sqrt ((vx p - vx v) ^ 2 + (vy p - vy v) ^ 2)
  else
    let t := ((vx p - vx v) * (vx w - vx v) + (vy p - vy v) * (vy w - vy v)) / l2 in
    let t := Rmax 0 (Rmin 1 t) in
    let px := vx v + t * (vx w - vx v) in
    let py := vy v + t * (vy w - vy v) in
    sqrt ((vx p - px) ^ 2 + (vy p - py) ^ 2).

Definition lineRectCollide (x1 y1 x2 y2 rx ry rw rh : R) : bool :=
  let inside := fun x y : R =>
    Rleb rx x && Rleb x (rx + rw) && Rleb ry y && Rleb y (ry + rh) in
  if inside x1 y1 || inside x2 y2 then true
  else
    let lineLine := fun x1 y1 x2 y2 x3 y3 x4 y4 : R =>
      let denom := (y4 - y3) * (x2 - x1) - (x4 - x3) * (y2 - y1) in
      if Reqb denom 0 then false
      else
        let ua := ((x4 - x3) * (y1 - y3) - (y4 - y3) * (x1 - x3)) / denom in
        let ub := ((x2 - x1) * (y1 - y3) - (y2 - y1) * (x1 - x3)) / denom in
        Rleb 0 ua && Rleb ua 1 && Rleb 0 ub && Rleb ub 1 in
    let right := rx + rw in
    let bottom := ry + rh in
    if lineLine x1 y1 x2 y2 rx ry right ry then true
    else if lineLine x1 y1 x2 y2 rx bottom right bottom then true
    else if lineLine x1 y1 x2 y2 rx ry rx bottom then true
    else if lineLine x1 y1 x2 y2 right ry right bottom then true
    else false.

Definition getLineIntersection (p0 p1 p2 p3 : Vector2) : option Vector2 :=
  let s1_x := vx p1 - vx p0 in
  let s1_y := vy p1 - vy p0 in
  let s2_x := vx p3 - vx p2 in
  let s2_y := vy p3 - vy p2 in
  let denom := - s2_x * s1_y + s1_x * s2_y in
  if Reqb denom 0 then None
  else
    let s := (- s1_y * (vx p0 - vx p2) + s1_x * (vy p0 - vy p2)) / denom in
    let t := (s2_x * (vy p0 - vy p2) - s2_y * (vx p0 - vx p2)) / denom in
    if Rleb 0 s && Rleb s 1 && Rleb 0 t && Rleb t 1
    then Some (mkVector2 (vx p0 + t * s1_x) (vy p0 + t * s1_y))
    else None.

(** ** State of the component *)

Record Enemy : Type := mkEnemy {
  e_id : R; e_x : R; e_y : R; e_text : string; e_speed : R; e_hit : bool
}.

Record DuelPlayerState : Type := mkDuelPlayerState {
  id : PlayerId;
  hp : Z;
  maxHp : Z;
  saberColor : string;
  swordState : GameState;
  swordProgress : R;
  swordHand : option Handedness;
  lastFistTime : Z;
  velocity : R;
  prevHandPos : option Vector2;
  trail : list TrailEntry;
  lastHitTime : Z
}.

Definition set_hp (v : Z) (p : DuelPlayerState) : DuelPlayerState :=
  mkDuelPlayerState (id p) v (maxHp p) (saberColor p) (swordState p)
    (swordProgress p) (swordHand p) (lastFistTime p) (velocity p)
    (prevHandPos p) (trail p) (lastHitTime p).
Definition set_swordState (v : GameState) (p : DuelPlayerState) : DuelPlayerState :=
  mkDuelPlayerState (id p) (hp p) (maxHp p) (saberColor p) v
    (swordProgress p) (swordHand p) (lastFistTime p) (velocity p)
    (prevHandPos p) (trail p) (lastHitTime p).
Definition set_swordProgress (v : R) (p : DuelPlayerState) : DuelPlayerState :=
  mkDuelPlayerState (id p) (hp p) (maxHp p) (saberColor p) (swordState p)
    v (swordHand p) (lastFistTime p) (velocity p)
    (prevHandPos p) (trail p) (lastHitTime p).
Definition set_swordHand (v : option Handedness) (p : DuelPlayerState) : DuelPlayerState :=
  mkDuelPlayerState (id p) (hp p) (maxHp p) (saberColor p) (swordState p)
    (swordProgress p) v (lastFistTime p) (velocity p)
    (prevHandPos p) (trail p) (lastHitTime p).
Definition set_lastFistTime (v : Z) (p : DuelPlayerState) : DuelPlayerState :=
  mkDuelPlayerState (id p) (hp p) (maxHp p) (saberColor p) (swordState p)
    (swordProgress p) (swordHand p) v (velocity p)
    (prevHandPos p) (trail p) (lastHitTime p).
Definition set_velocity (v : R) (p : DuelPlayerState) : DuelPlayerState :=
  mkDuelPlayerState (id p) (hp p) (maxHp p) (saberColor p) (swordState p)
    (swordProgress p) (swordHand p) (lastFistTime p) v
    (prevHandPos p) (trail p) (lastHitTime p).
Definition set_prevHandPos (v : option Vector2) (p : DuelPlayerState) : DuelPlayerState :=
  mkDuelPlayerState (id p) (hp p) (maxHp p) (saberColor p) (swordState p)
    (swordProgress p) (swordHand p) (lastFistTime p) (velocity p)
    v (trail p) (lastHitTime p).
Definition set_trail (v : list TrailEntry) (p : DuelPlayerState) : DuelPlayerState :=
  mkDuelPlayerState (id p) (hp p) (maxHp p) (saberColor p) (swordState p)
    (swordProgress p) (swordHand p) (lastFistTime p) (velocity p)
    (prevHandPos p) v (lastHitTime p).
Definition set_lastHitTime (v : Z) (p : DuelPlayerState) : DuelPlayerState :=
  mkDuelPlayerState (id p) (hp p) (maxHp p) (saberColor p) (swordState p)
    (swordProgress p) (swordHand p) (lastFistTime p) (velocity p)
    (prevHandPos p) (trail p) v.

(** The refs of the solo actor ("Solo Logic Refs"). *)
Record SoloRefs : Type := mkSoloRefs {
  gameStateRef : GameState;
  swordProgressRef : R;
  prevHandPosRef : option Vector2;
  velocityRef : R;
  trailHistoryRef : list TrailEntry;
  swordHandRef : option Handedness;
  lastFistTimeRef : Z
}.

Definition set_gameStateRef (v : GameState) (s : SoloRefs) : SoloRefs :=
  mkSoloRefs v (swordProgressRef s) (prevHandPosRef s) (velocityRef s)
    (trailHistoryRef s) (swordHandRef s) (lastFistTimeRef s).
Definition set_swordProgressRef (v : R) (s : SoloRefs) : SoloRefs :=
  mkSoloRefs (gameStateRef s) v (prevHandPosRef s) (velocityRef s)
    (trailHistoryRef s) (swordHandRef s) (lastFistTimeRef s).
Definition set_prevHandPosRef (v : option Vector2) (s : SoloRefs) : SoloRefs :=
  mkSoloRefs (gameStateRef s) (swordProgressRef s) v (velocityRef s)
    (trailHistoryRef s) (swordHandRef s) (lastFistTimeRef s).
Definition set_velocityRef (v : R) (s : SoloRefs) : SoloRefs :=
  mkSoloRefs (gameStateRef s) (swordProgressRef s) (prevHandPosRef s) v
    (trailHistoryRef s) (swordHandRef s) (lastFistTimeRef s).
Definition set_swordHandRef (v : option Handedness) (s : SoloRefs) : SoloRefs :=
  mkSoloRefs (gameStateRef s) (swordProgressRef s) (prevHandPosRef s)
    (velocityRef s) (trailHistoryRef s) v (lastFistTimeRef s).
Definition set_lastFistTimeRef (v : Z) (s : SoloRefs) : SoloRefs :=
  mkSoloRefs (gameStateRef s) (swordProgressRef s) (prevHandPosRef s)
    (velocityRef s) (trailHistoryRef s) (swordHandRef s) v.

(** The state of [LightsaberAR] that the game logic reads and writes: the
    React state cells first, then the refs.  The refs of the tracker, of the
    canvas, of the particles and of the nod detector are not part of it. *)
Record App : Type := mkApp {
  gameMode : GameMode;
  gameState : GameState;
  isGameActive : bool;
  score : Z;
  duelWinner : option Z;
  p1Hp : Z;
  p2Hp : Z;
  hitFlash : Z;
  clashFlash : bool;
  solo : SoloRefs;
  enemiesRef : list Enemy;
  isGameActiveRef : bool;
  duelStateRef : GameState;
  player1Ref : DuelPlayerState;
  player2Ref : DuelPlayerState
}.

Definition set_gameMode (v : GameMode) (a : App) : App :=
  mkApp v (gameState a) (isGameActive a) (score a) (duelWinner a) (p1Hp a)
    (p2Hp a) (hitFlash a) (clashFlash a) (solo a) (enemiesRef a)
    (isGameActiveRef a) (duelStateRef a) (player1Ref a) (player2Ref a).
Definition setGameState (v : GameState) (a : App) : App :=
  mkApp (gameMode a) v (isGameActive a) (score a) (duelWinner a) (p1Hp a)
    (p2Hp a) (hitFlash a) (clashFlash a) (solo a) (enemiesRef a)
    (isGameActiveRef a) (duelStateRef a) (player1Ref a) (player2Ref a).
Definition setIsGameActive (v : bool) (a : App) : App :=
  mkApp (gameMode a) (gameState a) v (score a) (duelWinner a) (p1Hp a)
    (p2Hp a) (hitFlash a) (clashFlash a) (solo a) (enemiesRef a)
    (isGameActiveRef a) (duelStateRef a) (player1Ref a) (player2Ref a).
Definition setScore (v : Z) (a : App) : App :=
  mkApp (gameMode a) (gameState a) (isGameActive a) v (duelWinner a) (p1Hp a)
    (p2Hp a) (hitFlash a) (clashFlash a) (solo a) (enemiesRef a)
    (isGameActiveRef a) (duelStateRef a) (player1Ref a) (player2Ref a).
Definition setDuelWinner (v : option Z) (a : App) : App :=
  mkApp (gameMode a) (gameState a) (isGameActive a) (score a) v (p1Hp a)
    (p2Hp a) (hitFlash a) (clashFlash a) (solo a) (enemiesRef a)
    (isGameActiveRef a) (duelStateRef a) (player1Ref a) (player2Ref a).
Definition setP1Hp (v : Z) (a : App) : App :=
  mkApp (gameMode a) (gameState a) (isGameActive a) (score a) (duelWinner a) v
    (p2Hp a) (hitFlash a) (clashFlash a) (solo a) (enemiesRef a)
    (isGameActiveRef a) (duelStateRef a) (player1Ref a) (player2Ref a).
Definition setP2Hp (v : Z) (a : App) : App :=
  mkApp (gameMode a) (gameState a) (isGameActive a) (score a) (duelWinner a)
    (p1Hp a) v (hitFlash a) (clashFlash a) (solo a) (enemiesRef a)
    (isGameActiveRef a) (duelStateRef a) (player1Ref a) (player2Ref a).
Definition setHitFlash (v : Z) (a : App) : App :=
  mkApp (gameMode a) (gameState a) (isGameActive a) (score a) (duelWinner a)
    (p1Hp a) (p2Hp a) v (clashFlash a) (solo a) (enemiesRef a)
    (isGameActiveRef a) (duelStateRef a) (player1Ref a) (player2Ref a).
Definition setClashFlash (v : bool) (a : App) : App :=
  mkApp (gameMode a) (gameState a) (isGameActive a) (score a) (duelWinner a)
    (p1Hp a) (p2Hp a) (hitFlash a) v (solo a) (enemiesRef a)
    (isGameActiveRef a) (duelStateRef a) (player1Ref a) (player2Ref a).
Definition set_solo (v : SoloRefs) (a : App) : App :=
  mkApp (gameMode a) (gameState a) (isGameActive a) (score a) (duelWinner a)
    (p1Hp a) (p2Hp a) (hitFlash a) (clashFlash a) v (enemiesRef a)
    (isGameActiveRef a) (duelStateRef a) (player1Ref a) (player2Ref a).
Definition set_enemiesRef (v : list Enemy) (a : App) : App :=
  mkApp (gameMode a) (gameState a) (isGameActive a) (score a) (duelWinner a)
    (p1Hp a) (p2Hp a) (hitFlash a) (clashFlash a) (solo a) v
    (isGameActiveRef a) (duelStateRef a) (player1Ref a) (player2Ref a).
Definition set_isGameActiveRef (v : bool) (a : App) : App :=
  mkApp (gameMode a) (gameState a) (isGameActive a) (score a) (duelWinner a)
    (p1Hp a) (p2Hp a) (hitFlash a) (clashFlash a) (solo a) (enemiesRef a)
    v (duelStateRef a) (player1Ref a) (player2Ref a).
Definition set_duelStateRef (v : GameState) (a : App) : App :=
  mkApp (gameMode a) (gameState a) (isGameActive a) (score a) (duelWinner a)
    (p1Hp a) (p2Hp a) (hitFlash a) (clashFlash a) (solo a) (enemiesRef a)
    (isGameActiveRef a) v (player1Ref a) (player2Ref a).
Definition set_player1Ref (v : DuelPlayerState) (a : App) : App :=
  mkApp (gameMode a) (gameState a) (isGameActive a) (score a) (duelWinner a)
    (p1Hp a) (p2Hp a) (hitFlash a) (clashFlash a) (solo a) (enemiesRef a)
    (isGameActiveRef a) (duelStateRef a) v (player2Ref a).
Definition set_player2Ref (v : DuelPlayerState) (a : App) : App :=
  mkApp (gameMode a) (gameState a) (isGameActive a) (score a) (duelWinner a)
    (p1Hp a) (p2Hp a) (hitFlash a) (clashFlash a) (solo a) (enemiesRef a)
    (isGameActiveRef a) (duelStateRef a) (player1Ref a) v.

(** The initial values of the [useState] and [useRef] calls. *)
Definition initPlayer (i : PlayerId) (c : string) : DuelPlayerState :=
  mkDuelPlayerState i 100 100 c IDLE 0 None 0 0 None [] 0.

Definition initSolo : SoloRefs := mkSoloRefs IDLE 0 None 0 [] None 0.

Definition initApp : App :=
  mkApp SOLO IDLE false 0 None 100 100 0 false initSolo [] false DUEL_WAITING
    (initPlayer P1 "#00ffff") (initPlayer P2 "#ff3333").

(** ** The state-and-exception monad of the mutating code *)

Definition M (S A : Type) : Type := S -> S * option A.

Definition ret {S A : Type} (a : A) : M S A := fun s => (s, Some a).

Definition bind {S A B : Type} (m : M S A) (k : A -> M S B) : M S B :=
  fun s => match m s with
           | (s', Some a) => k a s'
           | (s', None) => (s', None)
           end.

Definition get {S : Type} : M S S := fun s => (s, Some s).
Definition modify {S : Type} (f : S -> S) : M S unit := fun s => (f s, Some tt).
Definition liftE {S A : Type} (e : Exc A) : M S A := fun s => (s, e).
Definition whenM {S : Type} (b : bool) (m : M S unit) : M S unit :=
  if b then m else ret tt.

(** The state after running [m], whether it returned or raised. *)
Definition exec {S A : Type} (m : M S A) (s : S) : S := fst (m s).
(** Whether [m] returned. *)
Definition returns {S A : Type} (m : M S A) (s : S) : bool :=
  match snd (m s) with Some _ => true | None => false end.

Declare Scope monad_scope.
Delimit Scope monad_scope with monad.
Notation "x <- m ;; k" := (bind m (fun x => k))
  (at level 61, m at next level, right associativity) : monad_scope.
Notation "m ;; k" := (bind m (fun _ => k))
  (at level 61, right associativity) : monad_scope.

(** ** Constants of the component *)

Definition SWORD_LENGTH_SOLO : R := 0.62.
Definition SWORD_LENGTH_DUEL : R := 0.38.
Definition DUEL_AUTO_IGNITE_TIME : Z := 400.
Definition CASTING_START_DIST : R := 0.15.
Definition CASTING_COMPLETE_DIST : R := 0.55.
Definition FIST_LOSS_GRACE_PERIOD : Z := 2500.

(** [h.handedness === ref]: [ref] is a handedness or [null]. *)
Definition isHand (ref : option Handedness) (h : HandData) : bool :=
  match ref with
  | Some s => Handedness_eqb (handedness h) s
  | None => false
  end.

Open Scope monad_scope.

(** ** [processDuelPlayer]

    [now] is the value of [Date.now()].  The calls of [spawnParticles] only
    push onto the particle list, which the game logic never reads; they are
    left out, the evaluation of their arguments ([getGripPoints], which can
    raise) is kept. *)
Definition processDuelPlayer (now : Z) (myHands : list HandData)
  : M DuelPlayerState unit :=
  player <- get ;;
  let swordHand_ := find (isHand (swordHand player)) myHands in
  match swordState player with
  | IDLE =>
      fistHand <- liftE (findE isFist myHands) ;;
      match fistHand with
      | Some fistHand =>
          modify (set_swordHand (Some (handedness fistHand))) ;;
          modify (set_swordState HILT_FORMING) ;;
          modify (set_lastFistTime now) ;;
          modify (set_swordProgress 0)
      | None => ret tt
      end
  | HILT_FORMING =>
      let orElse : M DuelPlayerState unit :=
        modify (set_swordState IDLE) ;;
        modify (set_swordHand None) ;;
        modify (set_swordProgress 0) in
      match swordHand_ with
      | Some hand =>
          fist <- liftE (isFist hand) ;;
          if fist then
            modify (fun p => set_swordProgress (swordProgress p + 0.05) p) ;;
            player <- get ;;
            if (now - lastFistTime player >? DUEL_AUTO_IGNITE_TIME)%Z then
              modify (set_swordState ACTIVE) ;;
              modify (set_swordProgress 1) ;;
              _ <- liftE (getGripPoints hand) ;;
              ret tt
            else
              _ <- liftE (getGripPoints hand) ;;
              ret tt
          else orElse
      | None => orElse
      end
  | ACTIVE =>
      match swordHand_ with
      | Some hand =>
          fist <- liftE (isFist hand) ;;
          whenM fist (modify (set_lastFistTime now))
      | None => ret tt
      end ;;
      player <- get ;;
      whenM (now - lastFistTime player >? FIST_LOSS_GRACE_PERIOD)%Z
        (modify (set_swordState DISSOLVING)) ;;
      match swordHand_ with
      | Some hand =>
          grip <- liftE (getGripPoints hand) ;;
          player <- get ;;
          match prevHandPos player with
          | Some prev =>
              let delta := getDistance (hiltTop grip) prev in
              modify (fun p => set_velocity (velocity p * 0.85 + delta * 0.15) p)
          | None => ret tt
          end ;;
          modify (set_prevHandPos (Some (hiltTop grip)))
      | None => ret tt
      end
  | DISSOLVING =>
      modify (fun p => set_swordProgress (swordProgress p - 0.1) p) ;;
      player <- get ;;
      whenM (Rleb (swordProgress player) 0)
        (modify (set_swordProgress 0) ;;
         modify (set_swordState IDLE) ;;
         modify (set_swordHand None))
  | _ => ret tt
  end.

(** ** [processSoloPlayer] *)

Definition modifySolo (f : SoloRefs -> SoloRefs) : M App unit :=
  modify (fun a => set_solo (f (solo a)) a).

(** [gameStateRef.current = s; setGameState(s)] *)
Definition enter (s : GameState) : M App unit :=
  modifySolo (set_gameStateRef s) ;;
  modify (setGameState s).

Definition processSoloPlayer (now : Z) (hands : list HandData) : M App unit :=
  app <- get ;;
  let swordHand_ := find (isHand (swordHandRef (solo app))) hands in
  let forceHand_ := find (fun h => negb (isHand (swordHandRef (solo app)) h)) hands in
  match gameStateRef (solo app) with
  | IDLE =>
      fistHand <- liftE (findE isFist hands) ;;
      match fistHand with
      | Some fistHand =>
          modifySolo (set_swordHandRef (Some (handedness fistHand))) ;;
          enter HILT_FORMING ;;
          modifySolo (set_lastFistTimeRef now)
      | None => ret tt
      end
  | HILT_FORMING | CASTING | ACTIVE =>
      match swordHand_ with
      | Some hand =>
          fist <- liftE (isFist hand) ;;
          whenM fist (modifySolo (set_lastFistTimeRef now))
      | None => ret tt
      end ;;
      app <- get ;;
      whenM (now - lastFistTimeRef (solo app) >? 500)%Z (enter DISSOLVING) ;;
      app <- get ;;
      match gameStateRef (solo app), swordHand_, forceHand_ with
      | HILT_FORMING, Some swordHand, Some forceHand =>
          c1 <- liftE (getHandCenter swordHand) ;;
          c2 <- liftE (getHandCenter forceHand) ;;
          whenM (Rltb (getDistance c1 c2) CASTING_START_DIST) (enter CASTING)
      | _, _, _ => ret tt
      end ;;
      app <- get ;;
      match gameStateRef (solo app), swordHand_, forceHand_ with
      | CASTING, Some swordHand, Some forceHand =>
          c1 <- liftE (getHandCenter swordHand) ;;
          c2 <- liftE (getHandCenter forceHand) ;;
          let dist := getDistance c1 c2 in
          let progress :=
            Rmin ((dist - CASTING_START_DIST)
                  / (CASTING_COMPLETE_DIST - CASTING_START_DIST)) 1 in
          modifySolo (set_swordProgressRef (Rmax 0 progress)) ;;
          _ <- liftE (getHandCenter forceHand) ;;
          whenM (Rleb 1 progress)
            (enter ACTIVE ;;
             _ <- liftE (getGripPoints swordHand) ;;
             ret tt)
      | _, _, _ => ret tt
      end ;;
      app <- get ;;
      match gameStateRef (solo app), swordHand_ with
      | ACTIVE, Some swordHand =>
          grip <- liftE (getGripPoints swordHand) ;;
          app <- get ;;
          match prevHandPosRef (solo app) with
          | Some prev =>
              let delta := getDistance (hiltTop grip) prev in
              modifySolo (fun s => set_velocityRef (velocityRef s * 0.85 + delta * 0.15) s)
          | None => ret tt
          end ;;
          modifySolo (set_prevHandPosRef (Some (hiltTop grip)))
      | _, _ => ret tt
      end
  | DISSOLVING =>
      modifySolo (fun s => set_swordProgressRef (swordProgressRef s - 0.05) s) ;;
      app <- get ;;
      whenM (Rleb (swordProgressRef (solo app)) 0)
        (modifySolo (set_swordProgressRef 0) ;;
         enter IDLE ;;
         modifySolo (set_swordHandRef None))
  | _ => ret tt
  end.

Close Scope monad_scope.

(** ** [resetGame] and [toggleMode] *)

Definition resetPlayer (p : DuelPlayerState) : DuelPlayerState :=
  let p := set_hp 100 p in
  let p := set_swordState IDLE p in
  let p := set_swordProgress 0 p in
  let p := set_swordHand None p in
  let p := set_trail [] p in
  let p := set_lastHitTime 0 p in
  set_lastFistTime 0 p.

Definition resetGame (a : App) : App :=
  let a := setScore 0 a in
  let a := setIsGameActive false a in
  let a := set_isGameActiveRef false a in
  let a := setGameState IDLE a in
  let a := set_solo (set_gameStateRef IDLE (solo a)) a in
  let a := set_enemiesRef [] a in
  let a := setHitFlash 0 a in
  let a := setClashFlash false a in
  let a := set_duelStateRef DUEL_WAITING a in
  let a := setDuelWinner None a in
  let a := setP1Hp 100 a in
  let a := setP2Hp 100 a in
  let a := set_player1Ref (resetPlayer (player1Ref a)) a in
  set_player2Ref (resetPlayer (player2Ref a)) a.

Definition toggleMode (a : App) : App :=
  let newMode := match gameMode a with SOLO => DUEL | DUEL => SOLO end in
  resetGame (set_gameMode newMode a).

(** ** Blade clash (the clash block of [drawLoop], duel fighting)

    [s1] and [s2] are the segments that [renderPlayer] returned for the two
    players; the result is [collisionPt], [None] for [null]. *)
Definition THRESHOLD : R := 50.

Definition clashPoint (s1 s2 : Segment) : option Vector2 :=
  match getLineIntersection (p1 s1) (p2 s1) (p1 s2) (p2 s2) with
  | Some collisionPt => Some collisionPt
  | None =>
      let d1 := distToSegment (p2 s1) (p1 s2) (p2 s2) in
      let d2 := distToSegment (p2 s2) (p1 s1) (p2 s1) in
      if Rltb d1 THRESHOLD then Some (p2 s1)
      else if Rltb d2 THRESHOLD then Some (p2 s2)
      else None
  end.

(** On a clash [setClashFlash(true)] is called (the timer that clears the flag
    50ms later is not modelled); nothing happens when a segment is missing. *)
Definition clashCheck (s1 s2 : option Segment) (a : App) : App * option Vector2 :=
  match s1, s2 with
  | Some s1, Some s2 =>
      match clashPoint s1 s2 with
      | Some pt => (setClashFlash true a, Some pt)
      | None => (a, None)
      end
  | _, _ => (a, None)
  end.

(** ** [checkHit] (duel fighting)

    [target] says which player object [targetPlayer] refers to; [targetFace]
    is the nose landmark of the defender's face when the face is tracked;
    [w] and [h] are the canvas size. *)
Definition playerRef (target : PlayerId) (a : App) : DuelPlayerState :=
  match target with P1 => player1Ref a | P2 => player2Ref a end.

Definition set_playerRef (target : PlayerId) (p : DuelPlayerState) (a : App) : App :=
  match target with P1 => set_player1Ref p a | P2 => set_player2Ref p a end.

Definition idNum (i : PlayerId) : Z := match i with P1 => 1 | P2 => 2 end.

Definition hitBox (targetFace : option Landmark) (isRightSidePlayer : bool)
    (w h : R) : R * R * R * R :=
  match targetFace with
  | Some nose =>
      let nx := (1 - lx nose) * w in
      let ny := ly nose * h in
      let boxW := 300 in
      let boxH := 700 in
      (nx - boxW / 2, ny - 150, boxW, boxH)
  | None =>
      let centerX := if isRightSidePlayer then w * 0.75 else w * 0.25 in
      let boxW := 350 in
      let boxH := 800 in
      (centerX - boxW / 2, h * 0.2, boxW, boxH)
  end.

Definition checkHit (now : Z) (w h : R) (saberSeg : option Segment)
    (targetFace : option Landmark) (target : PlayerId)
    (isRightSidePlayer : bool) (a : App) : App :=
  match saberSeg with
  | None => a
  | Some saberSeg =>
      if (now - lastHitTime (playerRef target a) <? 500)%Z then a
      else
        let '(boxX, boxY, boxW, boxH) := hitBox targetFace isRightSidePlayer w h in
        if lineRectCollide (vx (p1 saberSeg)) (vy (p1 saberSeg))
             (vx (p2 saberSeg)) (vy (p2 saberSeg)) boxX boxY boxW boxH
        then
          let tp := playerRef target a in
          let tp := set_hp (Z.max 0 (hp tp - 8)) tp in
          let tp := set_lastHitTime now tp in
          let a := set_playerRef target tp a in
          let a := setHitFlash (idNum (id tp)) a in
          if (hp tp <=? 0)%Z then
            let a := set_duelStateRef DUEL_ENDED a in
            setDuelWinner (Some (if (idNum (id tp) =? 1)%Z then 2 else 1)%Z) a
          else
            if (idNum (id tp) =? 1)%Z then setP1Hp (hp tp) a
            else setP2Hp (hp tp) a
        else a
  end.

(** The block of [drawLoop] guarded by [duelStateRef.current === DUEL_FIGHTING]:
    the clash test, then the two hit tests (player 1 attacks player 2, who
    stands on the right, then player 2 attacks player 1). *)
Definition duelFighting (now : Z) (w h : R) (s1 s2 : option Segment)
    (p1Face p2Face : option Landmark) (a : App) : App :=
  if GameState_eqb (duelStateRef a) DUEL_FIGHTING then
    let a := fst (clashCheck s1 s2 a) in
    let a := checkHit now w h s1 p2Face P2 true a in
    checkHit now w h s2 p1Face P1 false a
  else a.

(** * Specification-level definitions and concrete inputs *)

(** ** Segments *)

Section LineIntersection.

Variables p0 p1 p2 p3 : Vector2.

(** The quantities of the parametric solve, as the source computes them. *)
Definition solveDenom : R :=
  - (vx p3 - vx p2) * (vy p1 - vy p0) + (vx p1 - vx p0) * (vy p3 - vy p2).
Definition solveS : R :=
  (- (vy p1 - vy p0) * (vx p0 - vx p2) + (vx p1 - vx p0) * (vy p0 - vy p2))
  / solveDenom.
Definition solveT : R :=
  ((vx p3 - vx p2) * (vy p0 - vy p2) - (vy p3 - vy p2) * (vx p0 - vx p2))
  / solveDenom.

End LineIntersection.

(** [pointAt a b u] is the point [a + u * (b - a)] of the line through [a]
    and [b]; it is on the segment when [0 <= u <= 1]. *)
Definition pointAt (a b : Vector2) (u : R) : Vector2 :=
  mkVector2 (vx a + u * (vx b - vx a)) (vy a + u * (vy b - vy a)).

Definition onSegment (P a b : Vector2) : Prop :=
  exists u : R, 0 <= u <= 1 /\ P = pointAt a b u.

(** [p] is within [r] of the segment [[v, w]]. *)
Definition withinOfSegment (r : R) (p v w : Vector2) : Prop :=
  exists Q : Vector2, onSegment Q v w /\ getDistance Q p < r.

(** ** The fist classifier, from the specification *)

Module FistSpec.

(** The classifier as the specification words it, for a hand whose
    landmarks are all there.  [lm hand i] is landmark [i]. *)
Definition lm (hand : HandData) (i : nat) : Landmark :=
  nth i (landmarks hand) (mkLandmark 0 0 0).

Definition toWrist (hand : HandData) (i : nat) : R :=
  getDistance (lm hand i) (lm hand 0).

(** A finger is curled when its tip is closer to the wrist than its middle
    joint (PIP), or closer than 1.2 times the distance of its base joint
    (MCP). *)
Definition curled (hand : HandData) (tip pip mcp : nat) : bool :=
  Rltb (toWrist hand tip) (toWrist hand pip)
  || Rltb (toWrist hand tip) (1.2 * toWrist hand mcp).

(** Index, middle, ring and pinky: (tip, PIP, MCP). *)
Definition nonThumbFingers : list (nat * nat * nat) :=
  [ (8, 6, 5); (12, 10, 9); (16, 14, 13); (20, 18, 17) ]%nat.

Definition curledFingers (hand : HandData) : nat :=
  List.length (filter (fun f => let '(t, p, m) := f in curled hand t p m)
                 nonThumbFingers).

Definition is_fist (hand : HandData) : bool := (3 <=? curledFingers hand)%nat.

(** The landmarks of the thumb. *)
Definition thumb (i : nat) : Prop := (1 <= i <= 4)%nat.

(** Two hands that differ at most in the landmarks of the thumb. *)
Definition sameButThumb (h h' : HandData) : Prop :=
  forall i : nat, ~ thumb i ->
    nth_error (landmarks h) i = nth_error (landmarks h') i.

End FistSpec.

(** ** Transformations and comparisons of hands *)

(** The same scaling by [k] and translation by [t] of every coordinate. *)
Definition moveLandmark (k : R) (t : Landmark) (l : Landmark) : Landmark :=
  mkLandmark (k * lx l + lx t) (k * ly l + ly t) (k * lz l + lz t).

Definition moveHand (k : R) (t : Landmark) (hand : HandData) : HandData :=
  mkHandData (map (moveLandmark k t) (landmarks hand)) (handedness hand)
             (worldLandmarks hand).

(** Two landmarks with the same [x] and [y]. *)
Definition sameXY (a b : Landmark) : Prop := lx a = lx b /\ ly a = ly b.

(** Two hands whose landmarks agree on [x] and [y]. *)
Definition sameXYHand (h1 h2 : HandData) : Prop :=
  Forall2 sameXY (landmarks h1) (landmarks h2).

(** ** Concrete hands *)

(** A closed hand: the four finger tips are at the wrist, at [(0,0)]; every
    other landmark is at [(1,0)]. *)
Definition fistLandmarks : list Landmark :=
  map (fun i : nat =>
         if (i =? 0)%nat || (i =? 8)%nat || (i =? 12)%nat || (i =? 16)%nat
            || (i =? 20)%nat
         then mkLandmark 0 0 0 else mkLandmark 1 0 0)
      (seq 0 21).

Definition fistHand (hd : Handedness) : HandData :=
  mkHandData fistLandmarks hd None.

(** An open hand, for the classifier: every landmark at the same place. *)
Definition openHand (hd : Handedness) : HandData :=
  mkHandData (repeat (mkLandmark 0 0 0) 21) hd None.

(** The closed hand with every [z] set to 5. *)
Definition fistHandDeep (hd : Handedness) : HandData :=
  mkHandData (map (fun l => mkLandmark (lx l) (ly l) 5) fistLandmarks) hd None.

(** ** Hands in binary64 *)

Module Binary64Hands.

Import PrimFloat.
Local Open Scope float_scope.

(** The scaling by [k] and translation by [t] of every coordinate, carried
    out in binary64. *)
Definition moveLandmark (k : float) (t l : Binary64.Landmark) : Binary64.Landmark :=
  Binary64.mkLandmark (k * Binary64.lx l + Binary64.lx t)
                      (k * Binary64.ly l + Binary64.ly t)
                      (k * Binary64.lz l + Binary64.lz t).

Definition moveHand (k : float) (t : Binary64.Landmark) (hand : Binary64.HandData)
  : Binary64.HandData :=
  Binary64.mkHandData (map (moveLandmark k t) (Binary64.landmarks hand))
    (Binary64.handedness hand) (Binary64.worldLandmarks hand).








End Binary64Hands.

(** ** Actors over frames *)

(** What every frame of a duel actor keeps: the hand is bound exactly outside
    [IDLE]; the progress is 0 at [IDLE], 1 at [ACTIVE], in [[0,1]] while
    [DISSOLVING], and not negative during [HILT_FORMING]. *)
Definition duelInv (p : DuelPlayerState) : Prop :=
  match swordState p with
  | IDLE => swordHand p = None /\ swordProgress p = 0
  | HILT_FORMING => swordHand p <> None /\ 0 <= swordProgress p
  | ACTIVE => swordHand p <> None /\ swordProgress p = 1
  | DISSOLVING => swordHand p <> None /\ 0 <= swordProgress p <= 1
  | _ => False
  end.

(** What every frame of the solo actor keeps: the hand is bound exactly
    outside [IDLE]; the progress is 0 at [IDLE] and in [[0,1]] elsewhere. *)
Definition soloInv (s : SoloRefs) : Prop :=
  match gameStateRef s with
  | IDLE => swordHandRef s = None /\ swordProgressRef s = 0
  | HILT_FORMING | CASTING | ACTIVE | DISSOLVING =>
      swordHandRef s <> None /\ 0 <= swordProgressRef s <= 1
  | _ => False
  end.

(** A frame: the value of [Date.now()] and the hands given to the actor. *)
Definition Frame : Type := (Z * list HandData)%type.

(** The animation loop on one duel player: a frame that raises ends it. *)
Fixpoint duelFrames (frames : list Frame) : M DuelPlayerState unit :=
  match frames with
  | [] => ret tt
  | (now, hands) :: rest =>
      bind (processDuelPlayer now hands) (fun _ => duelFrames rest)
  end.

Fixpoint soloFrames (frames : list Frame) : M App unit :=
  match frames with
  | [] => ret tt
  | (now, hands) :: rest =>
      bind (processSoloPlayer now hands) (fun _ => soloFrames rest)
  end.

(** ** Grip and hits *)

(** In the hands of this frame the bound hand is absent, or is there and is
    not classified as a fist. *)
Definition gripLost (ref : option Handedness) (hands : list HandData) : Prop :=
  match find (isHand ref) hands with
  | None => True
  | Some hand => isFist hand = Some false
  end.

(** The collision test of [checkHit]: the attacking segment against the hit
    box of the defender. *)
Definition hitLands (w h : R) (saberSeg : Segment) (targetFace : option Landmark)
    (isRightSidePlayer : bool) : bool :=
  let '(boxX, boxY, boxW, boxH) := hitBox targetFace isRightSidePlayer w h in
  lineRectCollide (vx (p1 saberSeg)) (vy (p1 saberSeg))
    (vx (p2 saberSeg)) (vy (p2 saberSeg)) boxX boxY boxW boxH.

Definition opponent (i : PlayerId) : PlayerId :=
  match i with P1 => P2 | P2 => P1 end.

(** ** Concrete states and scenes *)

(** 22 frames, 16ms apart (a 60Hz display), a closed left hand in each. *)
Definition frames60 : list Frame :=
  map (fun i : nat => ((1000 + 16 * Z.of_nat i)%Z, [fistHand Left])) (seq 0 22).

(** The state that these frames reach from the initial state of player 1:
    the first frame binds the hand, the 21 that follow each add 0.05. *)
Definition overshotPlayer : DuelPlayerState :=
  mkDuelPlayerState P1 100 100 "#00ffff" HILT_FORMING 1.05 (Some Left) 1000 0
    None [] 0.

(** The solo player has closed the left hand at time 1000: the state after
    that one frame from the initial state. *)
Definition heldApp : App :=
  set_solo (mkSoloRefs HILT_FORMING 0 None 0 [] (Some Left) 1000)
           (setGameState HILT_FORMING initApp).

(** A duel player that swung the sword: a velocity and a previous position
    of the hilt are recorded. *)
Definition swungPlayer : DuelPlayerState :=
  mkDuelPlayerState P1 100 100 "#00ffff" ACTIVE 1 (Some Left) 1000 0.3
    (Some (mkVector2 0.5 0.5)) [] 0.

(** A duel player that has just closed the left hand, at time 1000. *)
Definition heldPlayer : DuelPlayerState :=
  mkDuelPlayerState P1 100 100 "#00ffff" HILT_FORMING 0 (Some Left) 1000 0
    None [] 0.

(** A duel in progress, both players fresh. *)
Definition fightApp : App := set_duelStateRef DUEL_FIGHTING initApp.

(** A blade that ends inside the fallback hit box of the player on the right
    of a 1000 x 1000 canvas. *)
Definition strike : Segment := mkSegment (mkVector2 600 300) (mkVector2 900 300).

(** Two parallel blades, 10 units apart: they do not intersect, and the tip
    of the first is within 50 units of the second. *)
Definition bladeA : Segment := mkSegment (mkVector2 0 0) (mkVector2 100 0).
Definition bladeB : Segment := mkSegment (mkVector2 0 10) (mkVector2 100 10).

(** The closed hand with the landmarks of the thumb moved away. *)
Definition fistHandThumbOut (hd : Handedness) : HandData :=
  mkHandData
    (map (fun i : nat =>
            if (1 <=? i)%nat && (i <=? 4)%nat then mkLandmark 9 9 0
            else nth i fistLandmarks (mkLandmark 0 0 0))
         (seq 0 21))
    hd None.

(** * Properties *)

(** ** Comparisons of numbers *)

Lemma Rltb_true (a b : R) : Rltb a b = true <-> a < b.
Proof. unfold Rltb; destruct (Rlt_dec a b); split; auto; discriminate. Qed.

Lemma Rltb_false (a b : R) : Rltb a b = false <-> b <= a.
Proof.
  unfold Rltb; destruct (Rlt_dec a b); split; auto; try discriminate; lra.
Qed.

Lemma Rleb_true (a b : R) : Rleb a b = true <-> a <= b.
Proof. unfold Rleb; destruct (Rle_dec a b); split; auto; discriminate. Qed.

Lemma Rleb_false (a b : R) : Rleb a b = false <-> b < a.
Proof.
  unfold Rleb; destruct (Rle_dec a b); split; auto; try discriminate; lra.
Qed.

Lemma Reqb_true (a b : R) : Reqb a b = true <-> a = b.
Proof. unfold Reqb; destruct (Req_dec_T a b); split; auto; discriminate. Qed.

Lemma Reqb_false (a b : R) : Reqb a b = false <-> a <> b.
Proof.
  unfold Reqb; destruct (Req_dec_T a b); split; auto; try discriminate.
  intros H; contradiction.
Qed.

(** ** Segment-segment intersection *)

Lemma getLineIntersection_unfold (p0 p1 p2 p3 : Vector2) :
  getLineIntersection p0 p1 p2 p3 =
  if Reqb (solveDenom p0 p1 p2 p3) 0 then None
  else if Rleb 0 (solveS p0 p1 p2 p3) && Rleb (solveS p0 p1 p2 p3) 1
          && Rleb 0 (solveT p0 p1 p2 p3) && Rleb (solveT p0 p1 p2 p3) 1
       then Some (pointAt p0 p1 (solveT p0 p1 p2 p3))
       else None.
Proof. reflexivity. Qed.

Lemma solve_both_sides (p0 p1 p2 p3 : Vector2) :
  solveDenom p0 p1 p2 p3 <> 0 ->
  pointAt p0 p1 (solveT p0 p1 p2 p3) = pointAt p2 p3 (solveS p0 p1 p2 p3).
Proof.
  intros Hd. unfold pointAt, solveT, solveS. unfold solveDenom in *.
  f_equal; field; exact Hd.
Qed.

(** C7. [getLineIntersection] returns a point exactly when the parametric
    solve has a non-zero denominator and both parameters [s] and [t] are in
    [[0,1]]; the point is then [p0 + t*(p1-p0)], which is also
    [p2 + s*(p3-p2)], so it lies on both segments; with a zero denominator
    (parallel or collinear segments, overlapping or not) the result is
    [None]. *)
Theorem getLineIntersection_spec (p0 p1 p2 p3 P : Vector2) :
  (getLineIntersection p0 p1 p2 p3 = Some P <->
     solveDenom p0 p1 p2 p3 <> 0 /\
     0 <= solveS p0 p1 p2 p3 <= 1 /\
     0 <= solveT p0 p1 p2 p3 <= 1 /\
     P = pointAt p0 p1 (solveT p0 p1 p2 p3)) /\
  (getLineIntersection p0 p1 p2 p3 = Some P ->
     onSegment P p0 p1 /\ onSegment P p2 p3) /\
  (solveDenom p0 p1 p2 p3 = 0 -> getLineIntersection p0 p1 p2 p3 = None).
Proof.
  rewrite getLineIntersection_unfold.
  destruct (Reqb (solveDenom p0 p1 p2 p3) 0) eqn:Hd.
  - apply Reqb_true in Hd. repeat split; try discriminate.
    intros [Hn _]; contradiction.
  - apply Reqb_false in Hd.
    destruct (Rleb 0 (solveS p0 p1 p2 p3) && Rleb (solveS p0 p1 p2 p3) 1
              && Rleb 0 (solveT p0 p1 p2 p3) && Rleb (solveT p0 p1 p2 p3) 1)
      eqn:Hb.
    + repeat rewrite andb_true_iff in Hb. rewrite !Rleb_true in Hb.
      destruct Hb as [[[Hs0 Hs1] Ht0] Ht1].
      split; [split|split].
      * intros E; injection E as <-. repeat split; assumption.
      * intros (_ & _ & _ & ->). reflexivity.
      * intros E; injection E as <-. split.
        -- exists (solveT p0 p1 p2 p3). split; [lra | reflexivity].
        -- exists (solveS p0 p1 p2 p3). split; [lra | apply solve_both_sides, Hd].
      * intros E; contradiction.
    + split; [split|split]; try discriminate.
      * intros (_ & [Hs0 Hs1] & [Ht0 Ht1] & _).
        rewrite <- (Rleb_true 0) in Hs0, Ht0. rewrite <- Rleb_true in Hs1, Ht1.
        rewrite Hs0, Hs1, Ht0, Ht1 in Hb. discriminate.
      * intros E; contradiction.
Qed.

(** ** Point-to-segment distance *)

Lemma sq_sum_zero (a b : R) : a ^ 2 + b ^ 2 = 0 -> a = 0 /\ b = 0.
Proof. intros H. split; nra. Qed.

Lemma Rmax_Rmin_clamp (t : R) : 0 <= Rmax 0 (Rmin 1 t) <= 1.
Proof.
  unfold Rmax, Rmin.
  destruct (Rle_dec 1 t); destruct (Rle_dec 0 _); lra.
Qed.

(** The distance computed is the distance to a point of the segment ... *)
Lemma distToSegment_closest (p v w : Vector2) :
  exists u : R, 0 <= u <= 1 /\ distToSegment p v w = getDistance (pointAt v w u) p.
Proof.
  unfold distToSegment.
  destruct (Reqb ((vx w - vx v) ^ 2 + (vy w - vy v) ^ 2) 0) eqn:E.
  - apply Reqb_true, sq_sum_zero in E. destruct E as [Ex Ey].
    exists 0. split; [lra|].
    unfold getDistance, pointAt; cbn [getX getY Vector2_HasXY vx vy].
    f_equal. rewrite Ex, Ey. ring.
  - eexists. split; [apply Rmax_Rmin_clamp|].
    unfold getDistance, pointAt; cbn [getX getY Vector2_HasXY vx vy].
    reflexivity.
Qed.

(** ... and no point of the segment is closer. *)
Lemma distToSegment_le (p v w : Vector2) (u : R) :
  0 <= u <= 1 -> distToSegment p v w <= getDistance (pointAt v w u) p.
Proof.
  intros Hu. unfold distToSegment, getDistance, pointAt.
  cbn [getX getY Vector2_HasXY vx vy].
  set (dx := vx w - vx v). set (dy := vy w - vy v).
  set (ex := vx p - vx v). set (ey := vy p - vy v).
  destruct (Reqb (dx ^ 2 + dy ^ 2) 0) eqn:E.
  - apply Reqb_true, sq_sum_zero in E. destruct E as [Ex Ey].
    apply sqrt_le_1_alt. rewrite Ex, Ey. unfold ex, ey. lra.
  - apply Reqb_false in E.
    assert (Hl : 0 < dx ^ 2 + dy ^ 2) by (assert (0 <= dx ^ 2 + dy ^ 2) by nra; lra).
    set (l2 := dx ^ 2 + dy ^ 2) in *.
    set (t0 := (ex * dx + ey * dy) / l2).
    assert (Ha : ex * dx + ey * dy = t0 * l2) by (unfold t0; field; lra).
    set (t := Rmax 0 (Rmin 1 t0)).
    apply sqrt_le_1_alt.
    assert (Hdiff :
      (vx p - (vx v + u * dx)) ^ 2 + (vy p - (vy v + u * dy)) ^ 2
      - ((vx p - (vx v + t * dx)) ^ 2 + (vy p - (vy v + t * dy)) ^ 2)
      = l2 * ((u - t) * (u + t - 2 * t0))).
    { replace (vx p - (vx v + u * dx)) with (ex - u * dx) by (unfold ex; ring).
      replace (vy p - (vy v + u * dy)) with (ey - u * dy) by (unfold ey; ring).
      replace (vx p - (vx v + t * dx)) with (ex - t * dx) by (unfold ex; ring).
      replace (vy p - (vy v + t * dy)) with (ey - t * dy) by (unfold ey; ring).
      transitivity (l2 * (u * u - t * t) - 2 * (u - t) * (ex * dx + ey * dy)).
      - unfold l2. ring.
      - rewrite Ha. ring. }
    assert (Hnn : 0 <= (u - t) * (u + t - 2 * t0)).
    { assert (Ht : (t0 <= 0 /\ t = 0) \/ (1 <= t0 /\ t = 1)
                   \/ (0 <= t0 <= 1 /\ t = t0)).
      { unfold t, Rmax, Rmin.
        destruct (Rle_dec 1 t0); destruct (Rle_dec 0 _); lra. }
      destruct Ht as [[H0 ->] | [[H1 ->] | [H01 ->]]].
      - apply Rmult_le_pos; lra.
      - replace ((u - 1) * (u + 1 - 2 * t0))
          with ((1 - u) * (2 * t0 - 1 - u)) by ring.
        apply Rmult_le_pos; lra.
      - replace ((u - t0) * (u + t0 - 2 * t0)) with ((u - t0) ^ 2) by ring.
        apply pow2_ge_0. }
    assert (0 <= l2 * ((u - t) * (u + t - 2 * t0))) by (apply Rmult_le_pos; lra).
    lra.
Qed.

Lemma distToSegment_lt_iff (r : R) (p v w : Vector2) :
  distToSegment p v w < r <-> withinOfSegment r p v w.
Proof.
  split.
  - intros H. destruct (distToSegment_closest p v w) as (u & Hu & E).
    exists (pointAt v w u). split; [exists u; auto | rewrite <- E; exact H].
  - intros (Q & (u & Hu & ->) & H).
    eapply Rle_lt_trans; [apply distToSegment_le; exact Hu | exact H].
Qed.

(** ** Blade clash *)

(** C6. The clash test has two tiers.  When the segments intersect (as
    [getLineIntersection] finds it) a clash is reported at the intersection
    point.  Otherwise a clash is reported exactly when the tip of one blade
    is within 50 units of the other blade's segment (the clamped
    point-to-segment distance of [distToSegment] is below 50), and the
    contact point is a qualifying tip: the first blade's tip when it
    qualifies, the second blade's tip otherwise. *)
Theorem clashPoint_two_tier (s1 s2 : Segment) :
  let hit := getLineIntersection (p1 s1) (p2 s1) (p1 s2) (p2 s2) in
  let d1 := distToSegment (p2 s1) (p1 s2) (p2 s2) in
  let d2 := distToSegment (p2 s2) (p1 s1) (p2 s1) in
  (forall P, hit = Some P -> clashPoint s1 s2 = Some P) /\
  (hit = None ->
     (clashPoint s1 s2 <> None <-> d1 < 50 \/ d2 < 50) /\
     (clashPoint s1 s2 <> None <->
        withinOfSegment 50 (p2 s1) (p1 s2) (p2 s2) \/
        withinOfSegment 50 (p2 s2) (p1 s1) (p2 s1)) /\
     (d1 < 50 -> clashPoint s1 s2 = Some (p2 s1)) /\
     (~ d1 < 50 -> d2 < 50 -> clashPoint s1 s2 = Some (p2 s2))).
Proof.
  intros hit d1 d2. unfold clashPoint. fold hit d1 d2. unfold THRESHOLD.
  split.
  - intros P ->. reflexivity.
  - intros ->. rewrite <- !distToSegment_lt_iff. fold d1 d2.
    destruct (Rltb d1 50) eqn:E1.
    + apply Rltb_true in E1. repeat split; intros; try discriminate; auto; contradiction.
    + apply Rltb_false in E1. destruct (Rltb d2 50) eqn:E2.
      * apply Rltb_true in E2. repeat split; intros; try discriminate; auto; lra.
      * apply Rltb_false in E2.
        repeat split; intros; try lra; try contradiction;
          match goal with H : _ \/ _ |- _ => destruct H; lra end.
Qed.

(** ** The fist classifier *)

Ltac solve_fist_cases :=
  cbn [nth_error nth bindE forEachE fingers curlStep f_tip f_pip Nat.sub
       landmarkAt landmarks filter];
  repeat match goal with
  | |- context [if ?c then _ else _] => destruct c
  end; reflexivity.

Lemma isFist_short (hand : HandData) :
  (List.length (landmarks hand) < 21)%nat -> isFist hand = None.
Proof.
  unfold isFist, landmarkAt. destruct hand as [l hd wl].
  cbn [landmarks]. intros Hlen.
  do 21 (destruct l as [|? l]; [solve_fist_cases|]).
  cbn [List.length] in Hlen. lia.
Qed.

Lemma isFist_full (hand : HandData) :
  (21 <= List.length (landmarks hand))%nat ->
  isFist hand = Some (FistSpec.is_fist hand).
Proof.
  unfold isFist, landmarkAt, FistSpec.is_fist, FistSpec.curledFingers,
    FistSpec.curled, FistSpec.toWrist, FistSpec.lm, FistSpec.nonThumbFingers.
  destruct hand as [l hd wl]. cbn [landmarks]. intros Hlen.
  do 21 (destruct l as [|? l]; [cbn [List.length] in Hlen; lia|]).
  cbn [nth_error nth bindE forEachE fingers curlStep f_tip f_pip Nat.sub
       landmarkAt landmarks filter].
  repeat match goal with
  | |- context [getDistance ?a ?b * 1.2] =>
      rewrite (Rmult_comm (getDistance a b) 1.2)
  end.
  solve_fist_cases.
Qed.

(** C8. On a hand with its 21 landmarks (or more) [isFist] is true exactly
    when at least 3 of the 4 non-thumb fingers are curled, a finger being
    curled when its tip is closer to the wrist than its PIP joint or closer
    than 1.2 times the distance of its MCP joint; a shorter landmark array
    raises; the landmarks of the thumb (1 to 4) never influence the
    result. *)
Theorem isFist_spec (hand : HandData) :
  isFist hand =
    (if (21 <=? List.length (landmarks hand))%nat
     then Some (FistSpec.is_fist hand) else None)
  /\ (forall hand' : HandData,
        FistSpec.sameButThumb hand hand' -> isFist hand' = isFist hand).
Proof.
  split.
  - destruct (21 <=? List.length (landmarks hand))%nat eqn:E.
    + apply Nat.leb_le in E. apply isFist_full, E.
    + apply Nat.leb_gt in E. apply isFist_short, E.
  - intros hand' H. unfold isFist, landmarkAt, fingers.
    cbn [forEachE]. unfold curlStep, landmarkAt.
    cbn [f_tip f_pip Nat.sub].
    rewrite <- !H by (unfold FistSpec.thumb; lia). reflexivity.
Qed.

(** ** Translation and scaling of a hand *)





Lemma forEachE_ext {A S : Type} (f g : S -> A -> Exc S) (l : list A) (s : S) :
  (forall s a, f s a = g s a) -> forEachE f l s = forEachE g l s.
Proof.
  intros H. revert s. induction l as [|a l IH]; intros s; cbn [forEachE].
  - reflexivity.
  - rewrite H. destruct (g s a); cbn [bindE]; auto.
Qed.


(** ** Scaling and translation in binary64 *)






(** ** Independence of the depth coordinate *)

Lemma getDistance_sameXY (a a' b b' : Landmark) :
  sameXY a a' -> sameXY b b' -> getDistance a b = getDistance a' b'.
Proof.
  intros [Hax Hay] [Hbx Hby]. unfold getDistance.
  cbn [getX getY Landmark_HasXY]. rewrite Hax, Hay, Hbx, Hby. reflexivity.
Qed.

Lemma landmarkAt_sameXY (h1 h2 : HandData) (i : nat) :
  sameXYHand h1 h2 ->
  match landmarkAt h1 i, landmarkAt h2 i with
  | Some a, Some b => sameXY a b
  | None, None => True
  | _, _ => False
  end.
Proof.
  unfold sameXYHand, landmarkAt. intros H. revert i.
  induction H as [|a b l1 l2 Hab _ IH]; intros [|i]; cbn [nth_error]; auto.
  apply IH.
Qed.

Ltac same_landmark h1 h2 i H :=
  let a := fresh "a" in let b := fresh "b" in let E := fresh "E" in
  pose proof (landmarkAt_sameXY h1 h2 i H) as E;
  destruct (landmarkAt h1 i) as [a|], (landmarkAt h2 i) as [b|];
  try contradiction; cbn [bindE]; [destruct E as [? ?] | try reflexivity].

Lemma curlStep_sameXY (h1 h2 : HandData) (w1 w2 : Landmark) (n : nat) (f : Finger) :
  sameXYHand h1 h2 -> sameXY w1 w2 ->
  curlStep h1 w1 n f = curlStep h2 w2 n f.
Proof.
  intros H Hw. unfold curlStep.
  pose proof (landmarkAt_sameXY h1 h2 (f_tip f) H) as E1.
  pose proof (landmarkAt_sameXY h1 h2 (f_pip f) H) as E2.
  pose proof (landmarkAt_sameXY h1 h2 (f_pip f - 1) H) as E3.
  destruct (landmarkAt h1 (f_tip f)), (landmarkAt h2 (f_tip f));
    try contradiction; [|reflexivity].
  destruct (landmarkAt h1 (f_pip f)), (landmarkAt h2 (f_pip f));
    try contradiction; [|reflexivity].
  destruct (landmarkAt h1 (f_pip f - 1)), (landmarkAt h2 (f_pip f - 1));
    try contradiction; [|reflexivity].
  cbn [bindE].
  rewrite (getDistance_sameXY _ _ _ _ E1 Hw), (getDistance_sameXY _ _ _ _ E2 Hw),
    (getDistance_sameXY _ _ _ _ E3 Hw).
  reflexivity.
Qed.

Lemma isFist_sameXY (h1 h2 : HandData) :
  sameXYHand h1 h2 -> isFist h1 = isFist h2.
Proof.
  intros H. unfold isFist.
  pose proof (landmarkAt_sameXY h1 h2 0 H) as E0.
  destruct (landmarkAt h1 0) as [w1|], (landmarkAt h2 0) as [w2|];
    try contradiction; [|reflexivity].
  cbn [bindE].
  rewrite (forEachE_ext _ (curlStep h2 w2)); [reflexivity|].
  intros s a. apply curlStep_sameXY; assumption.
Qed.

Lemma getHandCenter_sameXY (h1 h2 : HandData) :
  sameXYHand h1 h2 -> getHandCenter h1 = getHandCenter h2.
Proof.
  intros H. unfold getHandCenter.
  same_landmark h1 h2 0%nat H. same_landmark h1 h2 5%nat H.
  same_landmark h1 h2 17%nat H. congruence.
Qed.

Lemma getSwordDirection_sameXY (h1 h2 : HandData) :
  sameXYHand h1 h2 -> getSwordDirection h1 = getSwordDirection h2.
Proof.
  intros H. unfold getSwordDirection.
  same_landmark h1 h2 0%nat H. same_landmark h1 h2 5%nat H.
  same_landmark h1 h2 9%nat H. cbn [vx vy]. congruence.
Qed.

Lemma getGripPoints_sameXY (h1 h2 : HandData) :
  sameXYHand h1 h2 -> getGripPoints h1 = getGripPoints h2.
Proof.
  intros H. unfold getGripPoints.
  rewrite (getSwordDirection_sameXY h1 h2 H).
  same_landmark h1 h2 0%nat H. same_landmark h1 h2 5%nat H.
  same_landmark h1 h2 9%nat H.
  destruct (getSwordDirection h2); cbn [bindE]; [|reflexivity].
  unfold addVector, subVector. cbn [getX getY Landmark_HasXY Vector2_HasXY vx vy].
  congruence.
Qed.

(** C10. The functions of the geometry kernel read only [x] and [y]: on
    two hands whose landmarks agree on [x] and [y] (and differ in [z] as they
    like) [isFist], [getHandCenter], [getSwordDirection] and [getGripPoints]
    return the same result, and so does [getDistance] on landmarks that
    agree on [x] and [y]. *)
Theorem geometry_ignores_z (h1 h2 : HandData) :
  sameXYHand h1 h2 ->
  isFist h1 = isFist h2 /\
  getHandCenter h1 = getHandCenter h2 /\
  getSwordDirection h1 = getSwordDirection h2 /\
  getGripPoints h1 = getGripPoints h2 /\
  (forall a a' b b' : Landmark,
      sameXY a a' -> sameXY b b' -> getDistance a b = getDistance a' b').
Proof.
  intros H. repeat split.
  - apply isFist_sameXY, H.
  - apply getHandCenter_sameXY, H.
  - apply getSwordDirection_sameXY, H.
  - apply getGripPoints_sameXY, H.
  - intros; apply getDistance_sameXY; assumption.
Qed.

(** ** Concrete hands *)

Lemma sqrt_origin : sqrt ((0 - 0) ^ 2 + (0 - 0) ^ 2) = 0.
Proof. replace ((0 - 0) ^ 2 + (0 - 0) ^ 2) with 0 by ring. apply sqrt_0. Qed.

Lemma sqrt_unit : sqrt ((0 - 1) ^ 2 + (0 - 0) ^ 2) = 1.
Proof. replace ((0 - 1) ^ 2 + (0 - 0) ^ 2) with 1 by ring. apply sqrt_1. Qed.

Example isFist_fistHand (hd : Handedness) : isFist (fistHand hd) = Some true.
Proof.
  unfold isFist, landmarkAt, fistHand, fistLandmarks.
  cbn [seq map Nat.eqb orb landmarks nth_error bindE forEachE fingers curlStep
       f_tip f_pip Nat.sub landmarkAt].
  unfold getDistance. cbn [getX getY Landmark_HasXY lx ly].
  rewrite sqrt_origin, sqrt_unit.
  assert (E : Rltb 0 1 = true) by (apply Rltb_true; lra).
  rewrite E. reflexivity.
Qed.

Example isFist_openHand (hd : Handedness) : isFist (openHand hd) = Some false.
Proof.
  unfold isFist, landmarkAt, openHand.
  cbn [repeat landmarks nth_error bindE forEachE fingers curlStep
       f_tip f_pip Nat.sub landmarkAt].
  unfold getDistance. cbn [getX getY Landmark_HasXY lx ly].
  rewrite sqrt_origin.
  assert (E1 : Rltb 0 0 = false) by (apply Rltb_false; lra).
  assert (E2 : Rltb 0 (0 * 1.2) = false) by (apply Rltb_false; lra).
  rewrite E1, E2. reflexivity.
Qed.


Lemma sameXYHand_fistHandDeep (hd : Handedness) :
  sameXYHand (fistHand hd) (fistHandDeep hd).
Proof.
  unfold sameXYHand, fistHand, fistHandDeep. cbn [landmarks].
  induction fistLandmarks as [|a l IH]; cbn [map]; constructor.
  - split; reflexivity.
  - exact IH.
Defined.

(** C10, at a closed hand and the same hand with every [z] set to 5. *)
Lemma geometry_ignores_z_witness :
  sameXYHand (fistHand Left) (fistHandDeep Left) /\
  isFist (fistHand Left) = isFist (fistHandDeep Left) /\
  getGripPoints (fistHand Left) = getGripPoints (fistHandDeep Left).
Proof.
  pose proof (geometry_ignores_z (fistHand Left) (fistHandDeep Left)
                (sameXYHand_fistHandDeep Left)) as (H1 & _ & _ & H4 & _).
  split; [apply sameXYHand_fistHandDeep | split; assumption].
Defined.
(** ** Actor invariants *)

(** Unfolding of the monad, for proofs by cases on a whole frame. *)
Ltac unfold_monad :=
  unfold exec, returns, enter, modifySolo, whenM, bind, get, modify, liftE, ret.

Ltac simpl_state :=
  cbn [fst snd
       id hp maxHp saberColor swordState swordProgress swordHand lastFistTime
       velocity prevHandPos trail lastHitTime
       set_hp set_swordState set_swordProgress set_swordHand set_lastFistTime
       set_velocity set_prevHandPos set_trail set_lastHitTime
       gameStateRef swordProgressRef prevHandPosRef velocityRef trailHistoryRef
       swordHandRef lastFistTimeRef
       set_gameStateRef set_swordProgressRef set_prevHandPosRef set_velocityRef
       set_swordHandRef set_lastFistTimeRef
       gameMode gameState isGameActive score duelWinner p1Hp p2Hp hitFlash
       clashFlash solo enemiesRef isGameActiveRef duelStateRef player1Ref
       player2Ref
       set_gameMode setGameState setIsGameActive setScore setDuelWinner setP1Hp
       setP2Hp setHitFlash setClashFlash set_solo set_enemiesRef
       set_isGameActiveRef set_duelStateRef set_player1Ref set_player2Ref] in *.

Ltac break_match :=
  repeat (simpl_state;
          match goal with
          | |- context [match ?x with _ => _ end] =>
              match x with
              | context [match _ with _ => _ end] => fail 1
              | _ => destruct x eqn:?
              end
          end);
  simpl_state.

Lemma duelInv_step (now : Z) (hands : list HandData) (p : DuelPlayerState) :
  duelInv p -> duelInv (exec (processDuelPlayer now hands) p).
Proof.
  unfold duelInv, processDuelPlayer. unfold_monad.
  destruct p as [i hp0 mh sc st pr hd lf ve pv tr lh].
  cbn [swordState swordHand swordProgress lastFistTime prevHandPos].
  intros H. destruct st; try contradiction; destruct H as [Hh Hp].
  all: break_match.
  all: try match goal with H : Rleb _ _ = true |- _ => apply Rleb_true in H end.
  all: try match goal with H : Rleb _ _ = false |- _ => apply Rleb_false in H end.
  all: cbn [swordProgress] in *.
  all: try (split; [try assumption; try discriminate; try reflexivity | try lra; try reflexivity]).
Qed.

Lemma Rmax_Rmin_unit (x : R) : 0 <= Rmax 0 (Rmin x 1) <= 1.
Proof.
  unfold Rmax, Rmin. destruct (Rle_dec x 1); destruct (Rle_dec 0 _); lra.
Qed.

Lemma soloInv_step (now : Z) (hands : list HandData) (a : App) :
  soloInv (solo a) -> soloInv (solo (exec (processSoloPlayer now hands) a)).
Proof.
  unfold soloInv, processSoloPlayer. unfold_monad.
  destruct a as [gm gs ga sc dw h1 h2 hf cf [st pr pv ve tr hd lf] en gar ds pl1 pl2].
  simpl_state.
  intros H. destruct st; try contradiction; destruct H as [Hh Hp].
  all: break_match.
  all: try match goal with H : Rleb _ _ = true |- _ => apply Rleb_true in H end.
  all: try match goal with H : Rleb _ _ = false |- _ => apply Rleb_false in H end.
  all: simpl_state.
  all: try (split; [try assumption; try discriminate; try reflexivity
                   | try lra; try reflexivity; try apply Rmax_Rmin_unit]).
Qed.

(** A hand that [isFist] accepts or rejects has its 21 landmarks, so
    [getGripPoints] does not raise on it. *)
Lemma isFist_some_length (hand : HandData) (b : bool) :
  isFist hand = Some b -> (21 <= List.length (landmarks hand))%nat.
Proof.
  intros H. destruct (Nat.le_gt_cases 21 (List.length (landmarks hand))) as [|Hlt].
  - assumption.
  - rewrite (isFist_short hand Hlt) in H. discriminate.
Qed.

Lemma landmarkAt_defined (hand : HandData) (i : nat) :
  (i < List.length (landmarks hand))%nat -> exists l, landmarkAt hand i = Some l.
Proof.
  intros H. unfold landmarkAt.
  destruct (nth_error (landmarks hand) i) eqn:E; [eauto|].
  apply nth_error_None in E. lia.
Qed.

Lemma getGripPoints_defined (hand : HandData) (b : bool) :
  isFist hand = Some b -> exists g, getGripPoints hand = Some g.
Proof.
  intros H. apply isFist_some_length in H.
  destruct (landmarkAt_defined hand 0) as [l0 E0]; [lia|].
  destruct (landmarkAt_defined hand 5) as [l5 E5]; [lia|].
  destruct (landmarkAt_defined hand 9) as [l9 E9]; [lia|].
  unfold getGripPoints, getSwordDirection. rewrite E0, E5, E9.
  cbn [bindE]. eauto.
Qed.

(** ** Frames of the duel actor *)

Lemma duelInv_frames (frames : list Frame) (p : DuelPlayerState) :
  duelInv p -> duelInv (exec (duelFrames frames) p).
Proof.
  revert p. induction frames as [|[now hands] rest IH]; intros p H.
  - exact H.
  - cbn [duelFrames]. unfold exec, bind.
    pose proof (duelInv_step now hands p H) as H1. unfold exec in H1.
    destruct (processDuelPlayer now hands p) as [p' [[]|]]; cbn [fst] in *.
    + apply IH, H1.
    + exact H1.
Qed.

Lemma soloInv_frames (frames : list Frame) (a : App) :
  soloInv (solo a) -> soloInv (solo (exec (soloFrames frames) a)).
Proof.
  revert a. induction frames as [|[now hands] rest IH]; intros a H.
  - exact H.
  - cbn [soloFrames]. unfold exec, bind.
    pose proof (soloInv_step now hands a H) as H1. unfold exec in H1.
    destruct (processSoloPlayer now hands a) as [a' [[]|]]; cbn [fst] in *.
    + apply IH, H1.
    + exact H1.
Qed.

(** What does hold of the progress, over every sequence of frames from the
    initial state: in solo mode it stays in [[0,1]]; in duel mode it is never
    negative and is at most 1 outside [HILT_FORMING]; at [IDLE] it is 0. *)
Lemma solo_progress_bounds (frames : list Frame) :
  let s := solo (exec (soloFrames frames) initApp) in
  0 <= swordProgressRef s <= 1 /\
  (gameStateRef s = IDLE -> swordProgressRef s = 0).
Proof.
  intros s. assert (H : soloInv s).
  { apply soloInv_frames. unfold soloInv; cbn. auto. }
  unfold soloInv in H. destruct (gameStateRef s); try contradiction;
    destruct H as [H1 H2]; split; try lra; try discriminate; auto.
Qed.

Lemma duel_progress_bounds (frames : list Frame) (i : PlayerId) (c : string) :
  let p := exec (duelFrames frames) (initPlayer i c) in
  0 <= swordProgress p /\
  (swordState p <> HILT_FORMING -> swordProgress p <= 1) /\
  (swordState p = IDLE -> swordProgress p = 0).
Proof.
  intros p. assert (H : duelInv p).
  { apply duelInv_frames. unfold duelInv; cbn. auto. }
  unfold duelInv in H. destruct (swordState p); try contradiction;
    destruct H as [H1 H2]; repeat split; try lra; try discriminate; auto;
    intros; try lra; congruence.
Qed.

(** ** Steps of the duel actor *)

Lemma duel_idle_fist (now : Z) (hands : list HandData) (p : DuelPlayerState)
    (fh : HandData) :
  swordState p = IDLE ->
  findE isFist hands = Some (Some fh) ->
  processDuelPlayer now hands p =
  (set_swordProgress 0
     (set_lastFistTime now
        (set_swordState HILT_FORMING
           (set_swordHand (Some (handedness fh)) p))), Some tt).
Proof.
  intros Hs Hf. unfold processDuelPlayer. unfold_monad.
  rewrite Hs, Hf. reflexivity.
Qed.

Lemma duel_hilt_hold (now : Z) (hands : list HandData) (p : DuelPlayerState)
    (h : HandData) :
  swordState p = HILT_FORMING ->
  find (isHand (swordHand p)) hands = Some h ->
  isFist h = Some true ->
  (now - lastFistTime p <= DUEL_AUTO_IGNITE_TIME)%Z ->
  processDuelPlayer now hands p =
  (set_swordProgress (swordProgress p + 0.05) p, Some tt).
Proof.
  intros Hs Hf Hfist Ht. unfold processDuelPlayer. unfold_monad.
  destruct (getGripPoints_defined h true Hfist) as [g Hg].
  rewrite Hs, Hf, Hfist. simpl_state.
  rewrite Z.gtb_ltb. apply Z.ltb_ge in Ht. rewrite Ht, Hg. reflexivity.
Qed.

(** While the fist is held and the ignition timer has not fired, every frame
    adds 0.05. *)
Lemma duel_hilt_hold_frames (hd : Handedness) (frames : list Frame)
    (p : DuelPlayerState) :
  swordState p = HILT_FORMING ->
  swordHand p = Some hd ->
  Forall (fun fr : Frame =>
            snd fr = [fistHand hd] /\
            (fst fr - lastFistTime p <= DUEL_AUTO_IGNITE_TIME)%Z) frames ->
  duelFrames frames p =
  (set_swordProgress (swordProgress p + 0.05 * INR (List.length frames)) p, Some tt).
Proof.
  intros Hs Hh HF. revert p Hs Hh HF.
  induction frames as [|[now hands] rest IH]; intros p Hs Hh HF.
  - cbn [duelFrames List.length INR]. unfold ret. f_equal.
    destruct p; simpl_state. unfold set_swordProgress; simpl_state.
    f_equal. lra.
  - inversion HF as [|? ? [Hhands Hnow] HF']; subst. cbn [fst snd] in *. subst hands.
    cbn [duelFrames]. unfold bind.
    rewrite (duel_hilt_hold now _ p (fistHand hd) Hs); cycle 1.
    { rewrite Hh. cbn [find isHand fistHand handedness].
      destruct hd; reflexivity. }
    { apply isFist_fistHand. }
    { exact Hnow. }
    rewrite (IH (set_swordProgress (swordProgress p + 0.05) p) Hs Hh HF').
    f_equal. destruct p; unfold set_swordProgress; simpl_state. f_equal.
    change (List.length ((now, [fistHand hd]) :: rest)) with (S (List.length rest)).
    rewrite S_INR. lra.
Qed.

(** ** The progress of a duel actor during [HILT_FORMING] *)

Lemma frames60_run :
  duelFrames frames60 (initPlayer P1 "#00ffff") = (overshotPlayer, Some tt).
Proof.
  change frames60 with
    ((1000%Z, [fistHand Left])
     :: map (fun i : nat => ((1000 + 16 * Z.of_nat i)%Z, [fistHand Left]))
            (seq 1 21)).
  cbn [duelFrames]. unfold bind at 1.
  rewrite (duel_idle_fist _ _ _ (fistHand Left)); cycle 1.
  { reflexivity. }
  { cbn [findE]. rewrite isFist_fistHand. reflexivity. }
  rewrite (duel_hilt_hold_frames Left); cycle 1.
  { reflexivity. }
  { reflexivity. }
  { cbn [map seq]. repeat constructor; vm_compute; discriminate. }
  rewrite length_map, length_seq.
  replace (INR 21) with 21 by (rewrite INR_IZR_INZ; reflexivity).
  unfold overshotPlayer, initPlayer, set_swordProgress, set_lastFistTime,
    set_swordState, set_swordHand. simpl_state.
  f_equal. f_equal. lra.
Qed.

(** C1 (the code at a failing input).  From the initial state of player 1,
    22 frames at 60 frames per second with the fist held: the 400ms ignition
    timer has not fired yet, no frame raises, the actor is in [HILT_FORMING]
    and its progress is 1.05, above 1. *)
Theorem duel_hilt_progress_overshoot :
  let r := duelFrames frames60 (initPlayer P1 "#00ffff") in
  snd r = Some tt /\
  swordState (fst r) = HILT_FORMING /\
  swordProgress (fst r) = 1.05 /\
  1 < swordProgress (fst r).
Proof.
  intros r. unfold r. rewrite frames60_run. cbn [fst snd].
  unfold overshotPlayer. simpl_state. repeat split. lra.
Qed.

(** ** [resetGame] *)

Lemma resetPlayer_effect (p : DuelPlayerState) :
  let p' := resetPlayer p in
  (hp p' = 100%Z /\ swordState p' = IDLE /\ swordProgress p' = 0 /\
   swordHand p' = None /\ trail p' = [] /\ lastHitTime p' = 0%Z /\
   lastFistTime p' = 0%Z) /\
  (id p' = id p /\ maxHp p' = maxHp p /\ saberColor p' = saberColor p /\
   velocity p' = velocity p /\ prevHandPos p' = prevHandPos p).
Proof. destruct p. cbv [resetPlayer]. simpl_state. repeat split. Qed.

(** What [resetGame] resets, and what it leaves as it was. *)
Lemma resetGame_effect (a : App) :
  let a' := resetGame a in
  (score a' = 0%Z /\ isGameActive a' = false /\ isGameActiveRef a' = false /\
   gameState a' = IDLE /\ gameStateRef (solo a') = IDLE /\
   enemiesRef a' = [] /\ hitFlash a' = 0%Z /\ clashFlash a' = false /\
   duelStateRef a' = DUEL_WAITING /\ duelWinner a' = None /\
   p1Hp a' = 100%Z /\ p2Hp a' = 100%Z /\
   player1Ref a' = resetPlayer (player1Ref a) /\
   player2Ref a' = resetPlayer (player2Ref a)) /\
  (gameMode a' = gameMode a /\
   swordProgressRef (solo a') = swordProgressRef (solo a) /\
   prevHandPosRef (solo a') = prevHandPosRef (solo a) /\
   velocityRef (solo a') = velocityRef (solo a) /\
   trailHistoryRef (solo a') = trailHistoryRef (solo a) /\
   swordHandRef (solo a') = swordHandRef (solo a) /\
   lastFistTimeRef (solo a') = lastFistTimeRef (solo a)).
Proof.
  destruct a as [gm gs ga sc dw h1 h2 hf cf [st pr pv ve tr hd lf] en gar ds pl1 pl2].
  cbv [resetGame]. simpl_state. repeat split.
Qed.

Lemma duelInv_resetPlayer (p : DuelPlayerState) : duelInv (resetPlayer p).
Proof. destruct p. cbv [resetPlayer duelInv]. simpl_state. auto. Qed.

(** ** Steps of the solo actor *)

Lemma solo_idle_fist (now : Z) (hands : list HandData) (a : App) (fh : HandData) :
  gameStateRef (solo a) = IDLE ->
  findE isFist hands = Some (Some fh) ->
  processSoloPlayer now hands a =
  (set_solo
     (set_lastFistTimeRef now
        (set_gameStateRef HILT_FORMING
           (set_swordHandRef (Some (handedness fh)) (solo a))))
     (setGameState HILT_FORMING a), Some tt).
Proof.
  intros Hs Hf. unfold processSoloPlayer. unfold_monad.
  rewrite Hs, Hf. destruct a. reflexivity.
Qed.

Lemma heldApp_reached :
  processSoloPlayer 1000 [fistHand Left] initApp = (heldApp, Some tt).
Proof.
  rewrite (solo_idle_fist _ _ _ (fistHand Left)).
  - reflexivity.
  - reflexivity.
  - cbn [findE]. rewrite isFist_fistHand. reflexivity.
Qed.

(** C2 (the code at a failing input).  After the solo player has closed a
    hand, [resetGame] (and [toggleMode], which calls it) leaves the bound
    hand and the fist timestamp of the solo actor at their values of before
    the reset, not at the defaults [null] and 0; on a duel player it leaves
    the velocity and the previous hilt position, not the defaults 0 and
    [null]. *)
Theorem resetGame_keeps_actor_fields :
  let a := resetGame heldApp in
  swordHandRef (solo a) = Some Left /\
  lastFistTimeRef (solo a) = 1000%Z /\
  swordHandRef (solo (toggleMode heldApp)) = Some Left /\
  velocity (player1Ref (resetGame (set_player1Ref swungPlayer fightApp))) = 0.3 /\
  prevHandPos (player1Ref (resetGame (set_player1Ref swungPlayer fightApp)))
  = Some (mkVector2 0.5 0.5).
Proof. repeat split. Qed.

(** ** The bound hand *)

(** Over the frames of an actor the hand is bound exactly outside [IDLE]. *)
Lemma solo_bound_hand_frames (frames : list Frame) :
  let s := solo (exec (soloFrames frames) initApp) in
  swordHandRef s <> None <-> gameStateRef s <> IDLE.
Proof.
  intros s. assert (H : soloInv s).
  { apply soloInv_frames. unfold soloInv; cbn. auto. }
  unfold soloInv in H. destruct (gameStateRef s); try contradiction;
    destruct H as [H1 H2]; split; intros; try discriminate; try congruence.
Qed.

Lemma duel_bound_hand (p : DuelPlayerState) :
  duelInv p -> (swordHand p <> None <-> swordState p <> IDLE).
Proof.
  unfold duelInv. destruct (swordState p); try contradiction;
    intros [H1 H2]; split; intros; try discriminate; try congruence.
Qed.

(** C3 (the code at a failing input).  The solo player closes the left hand,
    then [resetGame] runs: the actor is [IDLE] and its hand is still bound;
    the frame before the reset did bind the hand of the fist. *)
Theorem resetGame_solo_idle_with_bound_hand :
  processSoloPlayer 1000 [fistHand Left] initApp = (heldApp, Some tt) /\
  gameStateRef (solo (resetGame heldApp)) = IDLE /\
  swordHandRef (solo (resetGame heldApp)) = Some Left /\
  swordHandRef (solo (resetGame heldApp)) <> None.
Proof.
  split; [apply heldApp_reached|]. repeat split. discriminate.
Qed.

(** ** Losing the grip during [HILT_FORMING] *)

(** C4 as stated fails for the solo actor: the hand was bound at time 1000,
    the frame at time 1100 shows no hand at all, and the actor is still in
    [HILT_FORMING] with its hand bound. *)
Lemma solo_hilt_grip_lost_not_idle :
  gameStateRef (solo heldApp) = HILT_FORMING /\
  gripLost (swordHandRef (solo heldApp)) [] /\
  processSoloPlayer 1100 [] heldApp = (heldApp, Some tt) /\
  gameStateRef (solo (exec (processSoloPlayer 1100 []) heldApp)) <> IDLE.
Proof.
  assert (E : processSoloPlayer 1100 [] heldApp = (heldApp, Some tt)) by reflexivity.
  repeat split. unfold exec. rewrite E. discriminate.
Qed.

Lemma duel_hilt_grip_lost (now : Z) (hands : list HandData) (p : DuelPlayerState) :
  swordState p = HILT_FORMING ->
  gripLost (swordHand p) hands ->
  processDuelPlayer now hands p =
  (set_swordProgress 0 (set_swordHand None (set_swordState IDLE p)), Some tt).
Proof.
  unfold gripLost, processDuelPlayer. unfold_monad. intros Hs Hg.
  rewrite Hs. destruct (find (isHand (swordHand p)) hands) as [hand|].
  - rewrite Hg. reflexivity.
  - reflexivity.
Qed.

Lemma solo_hilt_grip_lost (now : Z) (hands : list HandData) (a : App) :
  gameStateRef (solo a) = HILT_FORMING ->
  gripLost (swordHandRef (solo a)) hands ->
  let a' := exec (processSoloPlayer now hands) a in
  gameStateRef (solo a') <> IDLE /\
  swordHandRef (solo a') = swordHandRef (solo a) /\
  lastFistTimeRef (solo a') = lastFistTimeRef (solo a) /\
  ((now - lastFistTimeRef (solo a) > 500)%Z ->
     gameStateRef (solo a') = DISSOLVING /\
     swordProgressRef (solo a') = swordProgressRef (solo a)) /\
  ((now - lastFistTimeRef (solo a) <= 500)%Z ->
     gameStateRef (solo a') <> DISSOLVING).
Proof.
  unfold gripLost, processSoloPlayer. unfold_monad.
  destruct a as [gm gs ga sc dw h1 h2 hf cf [st pr pv ve tr hd lf] en gar ds pl1 pl2].
  simpl_state. intros Hs Hg. subst st.
  destruct (find (isHand hd) hands) as [hand|] eqn:Ef.
  - rewrite Hg. simpl_state.
    destruct (Z.gtb_spec (now - lf) 500).
    all: break_match.
    all: repeat split; intros; try discriminate; try reflexivity; try lia.
  - simpl_state.
    destruct (Z.gtb_spec (now - lf) 500).
    all: break_match.
    all: repeat split; intros; try discriminate; try reflexivity; try lia.
Qed.

(** C4, amended.  A duel actor in [HILT_FORMING] whose bound hand is absent
    or not a fist in the current frame is [IDLE] after that frame, its hand
    unbound and its progress 0.  A solo actor in [HILT_FORMING] is not [IDLE]
    after such a frame: its hand stays bound, and it becomes [DISSOLVING],
    with its progress unchanged, exactly when more than 500ms have passed
    since the last frame in which the bound hand was a fist. *)
Theorem hilt_forming_grip_lost :
  (forall (now : Z) (hands : list HandData) (p : DuelPlayerState),
      swordState p = HILT_FORMING ->
      gripLost (swordHand p) hands ->
      let p' := exec (processDuelPlayer now hands) p in
      returns (processDuelPlayer now hands) p = true /\
      swordState p' = IDLE /\ swordHand p' = None /\ swordProgress p' = 0) /\
  (forall (now : Z) (hands : list HandData) (a : App),
      gameStateRef (solo a) = HILT_FORMING ->
      gripLost (swordHandRef (solo a)) hands ->
      let a' := exec (processSoloPlayer now hands) a in
      gameStateRef (solo a') <> IDLE /\
      swordHandRef (solo a') = swordHandRef (solo a) /\
      ((now - lastFistTimeRef (solo a) > 500)%Z ->
         gameStateRef (solo a') = DISSOLVING /\
         swordProgressRef (solo a') = swordProgressRef (solo a)) /\
      ((now - lastFistTimeRef (solo a) <= 500)%Z ->
         gameStateRef (solo a') <> DISSOLVING)).
Proof.
  split.
  - intros now hands p Hs Hg p'. subst p'. unfold exec, returns.
    rewrite (duel_hilt_grip_lost now hands p Hs Hg). cbn [fst snd].
    destruct p. simpl_state. repeat split.
  - intros now hands a Hs Hg.
    destruct (solo_hilt_grip_lost now hands a Hs Hg) as (H1 & H2 & _ & H4 & H5).
    repeat split; auto; apply H4; assumption.
Qed.

(** C4, amended, at a frame with an open left hand: the duel player that
    held the hilt is [IDLE] again; the solo player, 100ms after the fist, is
    not [IDLE]. *)
Lemma hilt_forming_grip_lost_witness :
  (swordState heldPlayer = HILT_FORMING /\
   gripLost (swordHand heldPlayer) [openHand Left] /\
   swordState (exec (processDuelPlayer 1100 [openHand Left]) heldPlayer) = IDLE) /\
  (gameStateRef (solo heldApp) = HILT_FORMING /\
   gripLost (swordHandRef (solo heldApp)) [openHand Left] /\
   gameStateRef (solo (exec (processSoloPlayer 1100 [openHand Left]) heldApp))
     <> IDLE).
Proof.
  assert (G : gripLost (Some Left) [openHand Left]).
  { unfold gripLost. cbn [find isHand openHand handedness Handedness_eqb].
    apply isFist_openHand. }
  destruct hilt_forming_grip_lost as [Hduel Hsolo].
  split.
  - split; [reflexivity | split; [exact G|]].
    apply (Hduel 1100%Z [openHand Left] heldPlayer); [reflexivity | exact G].
  - split; [reflexivity | split; [exact G|]].
    apply (Hsolo 1100%Z [openHand Left] heldApp); [reflexivity | exact G].
Defined.

(** ** Hits in a duel *)

Lemma checkHit_no_segment now w h face target side a :
  checkHit now w h None face target side a = a.
Proof. reflexivity. Qed.

Lemma checkHit_window now w h seg face target side a :
  (now - lastHitTime (playerRef target a) < 500)%Z ->
  checkHit now w h seg face target side a = a.
Proof.
  intros H. unfold checkHit. destruct seg; [|reflexivity].
  apply Z.ltb_lt in H. rewrite H. reflexivity.
Qed.

Lemma checkHit_miss now w h seg face target side a :
  hitLands w h seg face side = false ->
  checkHit now w h (Some seg) face target side a = a.
Proof.
  unfold hitLands, checkHit. intros H.
  destruct (now - lastHitTime (playerRef target a) <? 500)%Z; [reflexivity|].
  destruct (hitBox face side w h) as [[[bx by_] bw] bh].
  rewrite H. reflexivity.
Qed.

Lemma checkHit_lands now w h seg face target side a :
  (500 <= now - lastHitTime (playerRef target a))%Z ->
  hitLands w h seg face side = true ->
  let d := playerRef target a in
  let a' := checkHit now w h (Some seg) face target side a in
  let d' := playerRef target a' in
  hp d' = Z.max 0 (hp d - 8) /\
  lastHitTime d' = now /\
  id d' = id d /\
  playerRef (opponent target) a' = playerRef (opponent target) a /\
  ((hp d' <= 0)%Z ->
     duelStateRef a' = DUEL_ENDED /\
     duelWinner a' = Some (idNum (opponent (id d)))) /\
  ((0 < hp d')%Z ->
     duelStateRef a' = duelStateRef a /\ duelWinner a' = duelWinner a).
Proof.
  unfold hitLands, checkHit. intros Ht Hl.
  apply Z.ltb_ge in Ht. rewrite Ht.
  destruct (hitBox face side w h) as [[[bx by_] bw] bh].
  rewrite Hl.
  destruct a as [gm gs ga sc dw h1 h2 hf cf so en gar ds pl1 pl2].
  destruct target; cbn [playerRef set_playerRef opponent]; simpl_state.
  - destruct pl1 as [i hp0 mh c st pr hd lf ve pv tr lh]. simpl_state.
    destruct (Z.leb_spec (Z.max 0 (hp0 - 8)) 0); destruct i;
      cbn [idNum Z.eqb Pos.eqb opponent playerRef]; simpl_state;
      repeat split; intros; try reflexivity; lia.
  - destruct pl2 as [i hp0 mh c st pr hd lf ve pv tr lh]. simpl_state.
    destruct (Z.leb_spec (Z.max 0 (hp0 - 8)) 0); destruct i;
      cbn [idNum Z.eqb Pos.eqb opponent playerRef]; simpl_state;
      repeat split; intros; try reflexivity; lia.
Qed.

(** C5.  A hit attempt within 500ms of the defender's last successful hit
    (or without a segment, or with a segment that misses the hit box) leaves
    the whole state unchanged.  A successful hit lowers the defender's HP by
    8, but not below 0, and records its time, so that no attempt within the
    next 500ms changes anything; the other player is untouched; when the HP
    reaches 0 the match state is [DUEL_ENDED] and the winner is the other
    player. *)
Theorem checkHit_spec (now : Z) (w h : R) (seg : Segment)
    (face : option Landmark) (target : PlayerId) (side : bool) (a : App) :
  let d := playerRef target a in
  let a' := checkHit now w h (Some seg) face target side a in
  let d' := playerRef target a' in
  ((now - lastHitTime d < 500)%Z -> a' = a) /\
  (hitLands w h seg face side = false -> a' = a) /\
  ((500 <= now - lastHitTime d)%Z -> hitLands w h seg face side = true ->
     hp d' = Z.max 0 (hp d - 8) /\
     ((8 <= hp d)%Z -> hp d' = (hp d - 8)%Z) /\
     ((0 <= hp d)%Z -> (0 <= hp d' <= hp d)%Z) /\
     lastHitTime d' = now /\
     playerRef (opponent target) a' = playerRef (opponent target) a /\
     ((hp d' <= 0)%Z ->
        duelStateRef a' = DUEL_ENDED /\
        duelWinner a' = Some (idNum (opponent (id d)))) /\
     (forall now' w' h' seg' face' side',
        (now' - now < 500)%Z ->
        checkHit now' w' h' seg' face' target side' a' = a')).
Proof.
  intros d a' d'. split; [|split].
  - intros H. apply checkHit_window, H.
  - intros H. apply checkHit_miss, H.
  - intros Ht Hl.
    destruct (checkHit_lands now w h seg face target side a Ht Hl)
      as (Hhp & Hlast & _ & Hopp & Hend & _).
    fold d a' d' in Hhp, Hlast, Hopp, Hend.
    repeat split; try assumption; try lia.
    + apply Hend; assumption.
    + apply Hend; assumption.
    + intros. apply checkHit_window. fold d'. rewrite Hlast. assumption.
Qed.

(** ** Concrete scenes *)

Lemma strike_lands : hitLands 1000 1000 strike None true = true.
Proof.
  unfold hitLands, hitBox, lineRectCollide, strike. cbn [p1 p2 vx vy].
  repeat match goal with
  | |- context [Rleb ?a ?b] =>
      replace (Rleb a b) with true by (symmetry; apply Rleb_true; lra)
  end.
  reflexivity.
Qed.

(** C5, at the first hit of a duel: player 2 goes from 100 to 92. *)
Lemma checkHit_spec_witness :
  (500 <= 10000 - lastHitTime (playerRef P2 fightApp))%Z /\
  hitLands 1000 1000 strike None true = true /\
  hp (playerRef P2 (checkHit 10000 1000 1000 (Some strike) None P2 true fightApp))
  = 92%Z.
Proof.
  assert (Ht : (500 <= 10000 - lastHitTime (playerRef P2 fightApp))%Z)
    by (vm_compute; discriminate).
  split; [exact Ht | split; [exact strike_lands|]].
  destruct (checkHit_spec 10000 1000 1000 strike None P2 true fightApp)
    as (_ & _ & H).
  destruct (H Ht strike_lands) as (Hhp & _).
  rewrite Hhp. reflexivity.
Defined.

(** C7, at two blades that cross at [(1,1)]. *)
Lemma getLineIntersection_spec_witness :
  getLineIntersection (mkVector2 0 0) (mkVector2 2 2) (mkVector2 0 2) (mkVector2 2 0)
  = Some (mkVector2 1 1).
Proof.
  set (q0 := mkVector2 0 0). set (q1 := mkVector2 2 2).
  set (q2 := mkVector2 0 2). set (q3 := mkVector2 2 0).
  assert (Hd : solveDenom q0 q1 q2 q3 = -8)
    by (unfold solveDenom, q0, q1, q2, q3; cbn [vx vy]; ring).
  assert (Hs : solveS q0 q1 q2 q3 = 1 / 2).
  { unfold solveS. rewrite Hd. unfold q0, q1, q2, q3; cbn [vx vy]. field. }
  assert (Ht : solveT q0 q1 q2 q3 = 1 / 2).
  { unfold solveT. rewrite Hd. unfold q0, q1, q2, q3; cbn [vx vy]. field. }
  apply (proj1 (getLineIntersection_spec q0 q1 q2 q3 (mkVector2 1 1))).
  rewrite Hd, Hs, Ht. repeat split; try lra.
  unfold pointAt, q0, q1; cbn [vx vy]. f_equal; lra.
Defined.

Lemma blades_parallel :
  getLineIntersection (p1 bladeA) (p2 bladeA) (p1 bladeB) (p2 bladeB) = None.
Proof.
  rewrite getLineIntersection_unfold.
  replace (solveDenom (p1 bladeA) (p2 bladeA) (p1 bladeB) (p2 bladeB)) with 0
    by (unfold solveDenom, bladeA, bladeB; cbn [p1 p2 vx vy]; ring).
  replace (Reqb 0 0) with true by (symmetry; apply Reqb_true; reflexivity).
  reflexivity.
Qed.

Lemma blades_near : distToSegment (p2 bladeA) (p1 bladeB) (p2 bladeB) < 50.
Proof.
  apply distToSegment_lt_iff. exists (mkVector2 100 10). split.
  - exists 1. split; [lra|].
    unfold pointAt, bladeB; cbn [p1 p2 vx vy]. f_equal; ring.
  - unfold getDistance, bladeA; cbn [p2 getX getY Vector2_HasXY vx vy].
    replace ((100 - 100) ^ 2 + (0 - 10) ^ 2) with (10 ^ 2) by ring.
    rewrite sqrt_pow2; lra.
Qed.

(** C6, at these blades: a clash at the tip of the first. *)
Lemma clashPoint_two_tier_witness :
  getLineIntersection (p1 bladeA) (p2 bladeA) (p1 bladeB) (p2 bladeB) = None /\
  distToSegment (p2 bladeA) (p1 bladeB) (p2 bladeB) < 50 /\
  clashPoint bladeA bladeB = Some (p2 bladeA).
Proof.
  split; [exact blades_parallel | split; [exact blades_near|]].
  destruct (clashPoint_two_tier bladeA bladeB) as (_ & H).
  destruct (H blades_parallel) as (_ & _ & Hnear & _).
  exact (Hnear blades_near).
Defined.

(** C8, at a closed hand and at the same hand with the thumb moved away. *)
Lemma isFist_spec_witness :
  FistSpec.sameButThumb (fistHand Left) (fistHandThumbOut Left) /\
  isFist (fistHandThumbOut Left) = Some true.
Proof.
  assert (S : FistSpec.sameButThumb (fistHand Left) (fistHandThumbOut Left)).
  { intros i Hi. unfold FistSpec.thumb in Hi.
    do 21 (destruct i as [|i]; [try reflexivity; exfalso; lia|]).
    reflexivity. }
  split; [exact S|].
  rewrite (proj2 (isFist_spec (fistHand Left)) (fistHandThumbOut Left) S).
  apply isFist_fistHand.
Defined.
